(** * Limitation-code parsing and co-occurrence counting of
      [scripts/clean_analysis.py]

    The script reads a table of studies, each with five free-text
    "limitation" columns, and counts the limitation codes written in them
    ([analyze_specific_limitations], lines 128-152) and how often two of the
    ten most frequent codes occur together
    ([analyze_limitation_cooccurrence], lines 1077-1147).

    This file embeds those two functions and the Python string operations
    they call, and states the properties of the specification about them. *)

From Stdlib Require Import NArith List String Ascii QArith Sorted Lia.
From stdpp Require Import base gmap list fin_maps.

Close Scope Q_scope.
Open Scope nat_scope.

(** ** Python strings

    A Python [str] is a sequence of Unicode code points; a code point is a
    number.  [str.strip()] without argument removes the characters for which
    [str.isspace] holds, which is a property of the code point. *)
Module Py.

Definition str := list N.

(** The code points of an ASCII literal. *)
Definition of_string (s : string) : str :=
  map N_of_ascii (list_ascii_of_string s).

(** [c.isspace()] for one character: the white-space code points of
    CPython's Unicode database. *)
Definition isspace (c : N) : bool :=
  (((9 <=? c) && (c <=? 13)) || ((28 <=? c) && (c <=? 31)) || (c =? 32)
   || (c =? 133) || (c =? 160) || (c =? 5760)
   || ((8192 <=? c) && (c <=? 8202))
   || (c =? 8232) || (c =? 8233) || (c =? 8239) || (c =? 8287)
   || (c =? 12288))%N.

Fixpoint lstrip (s : str) : str :=
  match s with
  | [] => []
  | c :: s' => if isspace c then lstrip s' else s
  end.

Definition rstrip (s : str) : str := rev (lstrip (rev s)).

(** [s.strip()] *)
Definition strip (s : str) : str := rstrip (lstrip s).

(** [s.split(sep)] for a separator of one character: the pieces between the
    occurrences of [sep], empty pieces included; the result is never empty. *)
Fixpoint split (sep : N) (s : str) : list str :=
  match s with
  | [] => [[]]
  | c :: s' =>
      if (c =? sep)%N then [] :: split sep s'
      else match split sep s' with
           | p :: ps => (c :: p) :: ps
           | [] => [[c]]
           end
  end.

(** [sub in s] for a [sub] of one character. *)
Definition contains (c : N) (s : str) : bool := existsb (N.eqb c) s.

(** [l[0]]; Python raises IndexError on an empty list. *)
Definition item0 (l : list str) : option str := l !! 0.

End Py.

Definition semicolon : N := 59.
Definition colon : N := 58.

(** ** The code extractor (lines 137-139, 1085-1087, 1104-1105) *)

(** [codes = [code.strip() for code in str(value).split(';')]]; the value
    of a text column is a string already, and [str] returns it. *)
Definition codes (value : Py.str) : list Py.str :=
  map Py.strip (Py.split semicolon value).

(** [code.split(':')[0].strip() if ':' in code else code.strip()] *)
Definition code_key (code : Py.str) : Py.str :=
  if Py.contains colon code
  then match Py.item0 (Py.split colon code) with
       | Some p => Py.strip p
       | None => []
       end
  else Py.strip code.

(** [clean_codes = [code.split(':')[0].strip() if ':' in code else
    code.strip() for code in codes]] *)
Definition clean_codes (value : Py.str) : list Py.str :=
  map code_key (codes value).

(** A cell of a limitation column: [None] for a missing value (NaN), else
    the text.  The extractor of a cell: the loops skip a missing value
    ([dropna], [pd.notna]), so it yields no code. *)
Definition extract_codes (value : option Py.str) : list Py.str :=
  match value with
  | None => []
  | Some v => clean_codes v
  end.

(** ** The dataset

    [load_data] returns the table and the names of its five limitation
    columns (lines 71-77).  A study is a row of the table; only the
    limitation columns matter here. *)
Inductive column : Set :=
  | SAMPLING_DESIGN
  | MEASUREMENT_DATA
  | CONTEXT_LOGISTICS
  | ANALYSIS_GENERALIZABILITY
  | RESEARCH_CAPACITY.

Definition limitation_columns : list column :=
  [SAMPLING_DESIGN; MEASUREMENT_DATA; CONTEXT_LOGISTICS;
   ANALYSIS_GENERALIZABILITY; RESEARCH_CAPACITY].

Record study : Type := Study {
  sampling_design : option Py.str;
  measurement_data : option Py.str;
  context_logistics : option Py.str;
  analysis_generalizability : option Py.str;
  research_capacity : option Py.str
}.

Abbreviation dataframe := (list study).

Definition cell (r : study) (col : column) : option Py.str :=
  match col with
  | SAMPLING_DESIGN => sampling_design r
  | MEASUREMENT_DATA => measurement_data r
  | CONTEXT_LOGISTICS => context_logistics r
  | ANALYSIS_GENERALIZABILITY => analysis_generalizability r
  | RESEARCH_CAPACITY => research_capacity r
  end.

(** [df[col]], in row order *)
Definition column_values (df : dataframe) (col : column) : list (option Py.str) :=
  map (fun r => cell r col) df.

(** [series.dropna()] *)
Definition dropna (values : list (option Py.str)) : list Py.str :=
  omap id values.

(** ** Counting the codes (lines 132-143 and 1080-1091)

    [limitation_counts] is a Python dict from code to int.  The counts are
    natural numbers here: they only grow by one from one. *)

(** The body of [for code in codes]. *)
Definition count_code (limitation_counts : gmap Py.str nat) (code : Py.str)
  : gmap Py.str nat :=
  let key := code_key code in
  match limitation_counts !! key with
  | Some n => <[key := n + 1]> limitation_counts
  | None => <[key := 1]> limitation_counts
  end.

(** The body of [for value in non_null_data]. *)
Definition count_value (limitation_counts : gmap Py.str nat) (value : Py.str)
  : gmap Py.str nat :=
  fold_left count_code (codes value) limitation_counts.

(** The body of [for col in limitation_columns]. *)
Definition count_column (df : dataframe) (limitation_counts : gmap Py.str nat)
  (col : column) : gmap Py.str nat :=
  fold_left count_value (dropna (column_values df col)) limitation_counts.

Definition limitation_counts (df : dataframe) (cols : list column)
  : gmap Py.str nat :=
  fold_left (count_column df) cols ∅.

(** [limitations_df]: a row per code with its [Count] and its [Percentage],
    [(Count / len(df)) * 100].  The script computes the percentage in
    floating point; here it is the exact rational.  The order of the rows
    ([sort_values]) is not part of the table as a mapping. *)
Record limitation_row : Type := LimitationRow {
  Count : nat;
  Percentage : Q
}.

Definition percentage (count total : nat) : Q :=
  ((inject_Z (Z.of_nat count) / inject_Z (Z.of_nat total)) * 100)%Q.

Definition analyze_specific_limitations (df : dataframe) (cols : list column)
  : gmap Py.str limitation_row :=
  (fun n => LimitationRow n (percentage n (length df)))
    <$> limitation_counts df cols.

(** [top_limitations_df.sort_values('Count', ascending=False)
      .head(10).index.tolist()]: the first ten codes of the table once its
    rows are put in an order of descending count.  Which of two codes of
    equal count comes first is left to the sorting routine. *)
Definition is_top_10 (counts : gmap Py.str nat) (top : list Py.str) : Prop :=
  exists sorted : list (Py.str * nat),
    sorted ≡ₚ map_to_list counts /\
    StronglySorted (fun x y => snd y <= snd x) sorted /\
    top = map fst (take 10 sorted).

(** ** The co-occurrence matrix (lines 1099-1111)

    [cooccurrence_matrix] is a DataFrame of integers whose rows and columns
    are both labelled by the top codes: a finite map from pairs of labels
    to counts.  The entries are 64-bit in pandas; an entry never exceeds
    the number of visited cells ([entry_le_visited] below), so they are
    natural numbers here. *)

(** [pd.DataFrame(0, index=top_10_limitations, columns=top_10_limitations)] *)
Definition zero_matrix (top : list Py.str) : gmap (Py.str * Py.str) nat :=
  gset_to_gmap 0 (list_to_set (list_prod top top)).

(** [cooccurrence_matrix.loc[lim1, lim2] += 1]; both labels are labels of
    the matrix wherever the script does this. *)
Definition increment (M : gmap (Py.str * Py.str) nat) (lim1 lim2 : Py.str)
  : gmap (Py.str * Py.str) nat :=
  alter (fun n => n + 1) (lim1, lim2) M.

(** [present_limitations = [lim for lim in top_10_limitations
                             if lim in clean_codes]] *)
Definition present_limitations (top : list Py.str) (cleaned : list Py.str)
  : list Py.str :=
  filter (fun lim => lim ∈ cleaned) top.

(** [enumerate(l)] *)
Definition enumerate {A : Type} (l : list A) : list (nat * A) :=
  zip (seq 0 (length l)) l.

(** The body of [for lim2 in present_limitations[i+1:]]. *)
Definition count_pair (lim1 : Py.str) (M : gmap (Py.str * Py.str) nat)
  (lim2 : Py.str) : gmap (Py.str * Py.str) nat :=
  increment (increment M lim1 lim2) lim2 lim1.

(** [for i, lim1 in enumerate(present_limitations):
       for lim2 in present_limitations[i+1:]: ...] *)
Definition count_pairs (present : list Py.str) (M : gmap (Py.str * Py.str) nat)
  : gmap (Py.str * Py.str) nat :=
  fold_left
    (fun M '(i, lim1) => fold_left (count_pair lim1) (drop (i + 1) present) M)
    (enumerate present) M.

(** The body of [for idx, value in df[col].items()]. *)
Definition cooccur_value (top : list Py.str) (M : gmap (Py.str * Py.str) nat)
  (value : option Py.str) : gmap (Py.str * Py.str) nat :=
  match value with
  | None => M
  | Some v => count_pairs (present_limitations top (clean_codes v)) M
  end.

(** The body of [for col in limitation_columns]. *)
Definition cooccur_column (top : list Py.str) (df : dataframe)
  (M : gmap (Py.str * Py.str) nat) (col : column)
  : gmap (Py.str * Py.str) nat :=
  fold_left (cooccur_value top) (column_values df col) M.

Definition cooccurrence_matrix (top : list Py.str) (df : dataframe)
  (cols : list column) : gmap (Py.str * Py.str) nat :=
  fold_left (cooccur_column top df) cols (zero_matrix top).

(** What [analyze_limitation_cooccurrence] computes: the top codes of the
    counts, and the matrix over them. *)
Definition analyze_limitation_cooccurrence (df : dataframe)
  (cols : list column) (top : list Py.str)
  (M : gmap (Py.str * Py.str) nat) : Prop :=
  is_top_10 (limitation_counts df cols) top /\
  M = cooccurrence_matrix top df cols.

(** [M.iloc[i, j]]: the entry at a position. *)
Definition entry (top : list Py.str) (M : gmap (Py.str * Py.str) nat)
  (i j : nat) : option nat :=
  match top !! i, top !! j with
  | Some lim1, Some lim2 => M !! (lim1, lim2)
  | _, _ => None
  end.

(** ** The specification's wording, for comparison with the code *)

(** Text before the first [sep], or the whole text when there is none. *)
Fixpoint before_first (sep : N) (s : Py.str) : Py.str :=
  match s with
  | [] => []
  | c :: s' => if (c =? sep)%N then [] else c :: before_first sep s'
  end.

(** "Split the string on [;], trim each piece, then for each piece split on
    the first [:] - retain text before the colon if present, else the
    whole piece - and trim again." *)
Definition spec_extract (value : Py.str) : list Py.str :=
  map (fun piece => Py.strip (before_first colon (Py.strip piece)))
      (Py.split semicolon value).

(** All codes of a record: the extractor on each field, flattened. *)
Definition record_codes (cols : list column) (r : study) : list Py.str :=
  concat (map (fun col => extract_codes (cell r col)) cols).

(** "The set of distinct top-N codes present across all category fields":
    the codes of the record, only those among the top codes, without
    duplicates. *)
Definition record_code_set (top : list Py.str) (cols : list column) (r : study)
  : gset Py.str :=
  list_to_set (filter (fun code => code ∈ top) (record_codes cols r)).

(** "Number of records in which both code i and code j appear." *)
Definition records_with_both (top : list Py.str) (cols : list column)
  (df : dataframe) (lim1 lim2 : Py.str) : nat :=
  length (filter (fun r => lim1 ∈ record_code_set top cols r /\
                           lim2 ∈ record_code_set top cols r) df).

(** "Count of records containing that code at least once across all
    category fields." *)
Definition records_containing (cols : list column) (df : dataframe)
  (code : Py.str) : nat :=
  length (filter (fun r => code ∈ record_codes cols r) df).

(** The cells the loops visit, column by column, missing ones included. *)
Definition visited_values (df : dataframe) (cols : list column)
  : list (option Py.str) :=
  concat (map (column_values df) cols).

(** The number of visited cells whose codes contain both labels. *)
Definition fields_with_both (df : dataframe) (cols : list column)
  (lim1 lim2 : Py.str) : nat :=
  length (filter (fun value => lim1 ∈ extract_codes value /\
                               lim2 ∈ extract_codes value)
                 (visited_values df cols)).

(** The number of tokens of the visited cells that give a code. *)
Definition code_occurrences (df : dataframe) (cols : list column)
  (code : Py.str) : nat :=
  length (filter (fun c => c = code)
                 (concat (map extract_codes (visited_values df cols)))).

(** The sum of the entries off the diagonal. *)
Definition off_diagonal_sum (top : list Py.str)
  (M : gmap (Py.str * Py.str) nat) : nat :=
  sum_list_with
    (fun i =>
       sum_list_with
         (fun j => if decide (i = j) then 0 else default 0 (entry top M i j))
         (seq 0 (length top)))
    (seq 0 (length top)).

(** C(n,2) *)
Definition choose2 (n : nat) : nat := n * (n - 1) / 2.

(** ** Auxiliary definitions for the proofs *)

(** The two loops of [count_pairs] by recursion on the list. *)
Fixpoint count_pairs_rec (present : list Py.str)
  (M : gmap (Py.str * Py.str) nat) : gmap (Py.str * Py.str) nat :=
  match present with
  | [] => M
  | lim1 :: rest => count_pairs_rec rest (fold_left (count_pair lim1) rest M)
  end.

(** How many times the inner loop over [rest] increments the cell [p]. *)
Definition hits_inner (lim1 : Py.str) (rest : list Py.str)
  (p : Py.str * Py.str) : nat :=
  length (filter (fun lim2 => p = (lim1, lim2)) rest)
  + length (filter (fun lim2 => p = (lim2, lim1)) rest).

(** How many times [count_pairs] increments the cell [p]. *)
Fixpoint hits (present : list Py.str) (p : Py.str * Py.str) : nat :=
  match present with
  | [] => 0
  | lim1 :: rest => hits_inner lim1 rest p + hits rest p
  end.

(** The same for one visited cell, and for a list of them. *)
Definition value_hits (top : list Py.str) (p : Py.str * Py.str)
  (value : option Py.str) : nat :=
  match value with
  | None => 0
  | Some v => hits (present_limitations top (clean_codes v)) p
  end.

Definition total_hits (top : list Py.str) (p : Py.str * Py.str)
  (values : list (option Py.str)) : nat :=
  sum_list_with (value_hits top p) values.

(** Adding [k] to a cell of the matrix, when the cell exists. *)
Definition bump (k : nat) (o : option nat) : option nat :=
  (fun n => n + k) <$> o.

(** A count after [k] more occurrences of its code: a code that never
    occurred has no entry. *)
Definition add_occurrences (o : option nat) (k : nat) : option nat :=
  match k with
  | 0 => o
  | S _ => Some (default 0 o + k)
  end.

(** ** The other analyses of the script *)

(** [df['Topic area'].str.split(';').str[0].str.strip()] (line 24): the
    [.str] accessor keeps a missing value missing. *)
Definition primary_topic (topic_area : option Py.str) : option Py.str :=
  match topic_area with
  | None => None
  | Some v =>
      match Py.item0 (Py.split semicolon v) with
      | Some first => Some (Py.strip first)
      | None => None
      end
  end.

(** The two groups of limitation columns that the comparisons by setting,
    region, funding, site and journal use (lines 170-179, 261-270, 589-598,
    685-694, 780-789, 878-887). *)
Definition methodological_columns : list column :=
  [SAMPLING_DESIGN; MEASUREMENT_DATA; ANALYSIS_GENERALIZABILITY].

Definition contextual_columns : list column :=
  [CONTEXT_LOGISTICS; RESEARCH_CAPACITY].

(** [studies[col].notna().sum()] (lines 87, 355, 358, 710, 804, 807) *)
Definition notna_count (studies : dataframe) (col : column) : nat :=
  length (filter (fun value : option Py.str => is_Some value)
                 (column_values studies col)).

(** [studies[columns].notna().any(axis=1).sum()]: the studies with a value
    in at least one of the columns. *)
Definition notna_any_count (columns : list column) (studies : dataframe)
  : nat :=
  length (filter (fun r => Exists (fun col => is_Some (cell r col)) columns)
                 studies).

(** The counts of one group of studies in [analyze_regional_comparison]
    (lines 277-296); the other comparisons compute the same counts. *)
Record comparison_counts : Type := ComparisonCounts {
  Methodological_Count : nat;
  Contextual_Count : nat;
  Total_Count : nat;
  N_studies : nat
}.

Definition compare_group (cols : list column) (studies : dataframe)
  : comparison_counts :=
  {| Methodological_Count := notna_any_count methodological_columns studies;
     Contextual_Count := notna_any_count contextual_columns studies;
     Total_Count := notna_any_count cols studies;
     N_studies := length studies |}.

(** [analyze_top5_limitations_trends], lines 1039-1045: the loop over the
    rows of one column; [break] leaves it at the first study that reports
    the limitation. *)
Fixpoint count_first_report (limitation : Py.str)
  (values : list (option Py.str)) (count : nat) : nat :=
  match values with
  | [] => count
  | None :: rest => count_first_report limitation rest count
  | Some v :: rest =>
      if decide (limitation ∈ clean_codes v) then count + 1
      else count_first_report limitation rest count
  end.

(** Lines 1037-1045: the count of one limitation over the studies of one
    year. *)
Definition year_count (cols : list column) (year_studies : dataframe)
  (limitation : Py.str) : nat :=
  fold_left
    (fun count col =>
       count_first_report limitation (column_values year_studies col) count)
    cols 0.

(** [sub in s] for a string [sub]. *)
Fixpoint is_prefix (sub s : Py.str) : bool :=
  match sub, s with
  | [], _ => true
  | _ :: _, [] => false
  | c :: sub', d :: s' => (c =? d)%N && is_prefix sub' s'
  end.

Fixpoint contains_str (sub s : Py.str) : bool :=
  is_prefix sub s ||
  match s with
  | [] => false
  | _ :: s' => contains_str sub s'
  end.

(** [analyze_contextual_limitations_trends], line 401. *)
Definition contextual_limitations : list Py.str :=
  map Py.of_string
    ["FUNDING_CONSTRAINTS"; "TIME_CONSTRAINTS"; "LOGISTICAL_ISSUES";
     "ETHICAL_CONSTRAINTS"]%string.

(** [series.str.contains(limitation, na=False).sum()] (line 418).  The
    pattern is a regular expression; the four patterns of the script are
    made of letters and underscores, which match themselves, so the search
    is for the pattern as a substring.  A missing value counts as no match
    ([na=False]).  The column is a column of text, as [.str] requires. *)
Definition str_contains (limitation : Py.str) (value : option Py.str)
  : bool :=
  match value with
  | Some v => contains_str limitation v
  | None => false
  end.

Definition str_contains_count (limitation : Py.str)
  (values : list (option Py.str)) : nat :=
  length (filter (fun value => str_contains limitation value = true) values).

(** Lines 416-418: the count of one limitation over the studies of one
    year. *)
Definition contextual_count (cols : list column) (year_data : dataframe)
  (limitation : Py.str) : nat :=
  fold_left
    (fun count col =>
       count + str_contains_count limitation (column_values year_data col))
    cols 0.

(** [cooccurrence_pct = (cooccurrence_matrix / total_studies) * 100]
    (line 1116), as exact rationals.  Without studies the script divides 0
    by 0 and gets NaN, and [percentage] gives 0; both fail the test [> 0]
    below, the only use made of the values here. *)
Definition cooccurrence_pct (M : gmap (Py.str * Py.str) nat)
  (total_studies : nat) : gmap (Py.str * Py.str) Q :=
  (fun n => percentage n total_studies) <$> M.

(** The body of [for lim2 in top_10_limitations[i+1:]] (lines 1138-1139). *)
Definition add_pair (pct : gmap (Py.str * Py.str) Q) (lim1 : Py.str)
  (pairs : list (Py.str * Py.str * Q)) (lim2 : Py.str)
  : list (Py.str * Py.str * Q) :=
  match pct !! (lim1, lim2) with
  | Some x => if Qlt_le_dec 0 x then pairs ++ [(lim1, lim2, x)] else pairs
  | None => pairs
  end.

(** [cooccurrence_pairs] as the loops of lines 1135-1139 leave it, before
    it is sorted by percentage. *)
Definition cooccurrence_pairs (top : list Py.str)
  (pct : gmap (Py.str * Py.str) Q) : list (Py.str * Py.str * Q) :=
  fold_left
    (fun pairs '(i, lim1) => fold_left (add_pair pct lim1) (drop (i + 1) top) pairs)
    (enumerate top) [].

(** The same loops by recursion on the list. *)
Fixpoint cooccurrence_pairs_rec (pct : gmap (Py.str * Py.str) Q)
  (top : list Py.str) (pairs : list (Py.str * Py.str * Q))
  : list (Py.str * Py.str * Q) :=
  match top with
  | [] => pairs
  | lim1 :: rest =>
      cooccurrence_pairs_rec pct rest (fold_left (add_pair pct lim1) rest pairs)
  end.

(** [str.lower] on the letters A to Z; the script only applies it to
    compare with lower-case words. *)
Definition ascii_lower (s : Py.str) : Py.str :=
  map (fun c => if ((65 <=? c) && (c <=? 90))%N then (c + 32)%N else c) s.

(** [clean_multi_site] of [load_data] (lines 57-66); [lower] stands for
    Python's [str.lower], whose Unicode tables are not part of the script. *)
Definition clean_multi_site (lower : Py.str -> Py.str)
  (value : option Py.str) : Py.str :=
  match value with
  | None => Py.of_string "Not reported"
  | Some v =>
      let value_str := lower (Py.strip v) in
      if decide (value_str = Py.of_string "yes") then Py.of_string "Yes"
      else if decide (value_str = Py.of_string "no") then Py.of_string "No"
      else Py.of_string "Not reported"
  end.

(** [df['Multi-site study '].str.strip() == label] (lines 772-773): a
    missing value is in no group. *)
Definition in_group (label : Py.str) (value : option Py.str) : bool :=
  match value with
  | None => false
  | Some v => bool_decide (Py.strip v = label)
  end.

(** A text occurs inside another. *)
Definition infix (sub s : Py.str) : Prop :=
  exists before after, s = before ++ sub ++ after.

(** The sum of the [Count] column of the table of codes. *)
Definition sum_counts (counts : gmap Py.str nat) : nat :=
  map_fold (fun _ n total => n + total) 0 counts.

(** Two tables of counts added entry by entry. *)
Definition add_counts {K : Type} `{Countable K} (m1 m2 : gmap K nat)
  : gmap K nat :=
  union_with (fun n m => Some (n + m)) m1 m2.

(** ** Sample inputs *)
Module Sample.

Definition A : Py.str := Py.of_string "A".
Definition B : Py.str := Py.of_string "B".
Definition C : Py.str := Py.of_string "C".

(** One study that reports the codes A and B in two of its columns. *)
Definition both_twice : study :=
  Study (Some (Py.of_string "A: small sample; B: recall bias"))
        (Some (Py.of_string "A;B")) None None None.

(** One study that reports A in one column and B in another. *)
Definition apart : study :=
  Study (Some (Py.of_string "A: small sample")) None
        (Some (Py.of_string "B: insecurity")) None None.

(** One study that reports A, B and C, each in a column of its own. *)
Definition three_apart : study :=
  Study (Some (Py.of_string "A")) (Some (Py.of_string "B"))
        (Some (Py.of_string "C")) None None.

(** One study that reports the same code twice in one column. *)
Definition repeated : study :=
  Study (Some (Py.of_string "A: first reason; A: second reason"))
        None None None None.

(** Ten codes, and a study that reports all of them in two columns. *)
Definition ten_codes : list Py.str :=
  map Py.of_string ["J"; "I"; "H"; "G"; "F"; "E"; "D"; "C"; "B"; "A"]%string.

Definition all_ten_twice : study :=
  Study (Some (Py.of_string "A;B;C;D;E;F;G;H;I;J"))
        (Some (Py.of_string "A;B;C;D;E;F;G;H;I;J")) None None None.

(** A field with an empty piece and a piece that starts with a colon. *)
Definition ragged : Py.str := Py.of_string "A: x; ;:y".

End Sample.

(** The top codes of a sample: [sorted] lists the counts in an order of
    descending count. *)
Ltac top_10_by sorted :=
  exists sorted; split;
  [vm_compute; reflexivity | split; [repeat constructor | reflexivity]].

(** * Properties *)

(** ** Python strings and the code extractor *)
Section Extractor.

Implicit Types (s piece : Py.str) (sep c : N).

Lemma split_not_nil sep s : Py.split sep s <> [].
Proof.
  destruct s as [|c s]; simpl; [discriminate|].
  destruct (c =? sep)%N; [discriminate|].
  destruct (Py.split sep s); discriminate.
Qed.

Lemma item0_split sep s :
  Py.item0 (Py.split sep s) = Some (before_first sep s).
Proof.
  unfold Py.item0. induction s as [|c s IH]; simpl; [reflexivity|].
  destruct (c =? sep)%N; [reflexivity|].
  destruct (Py.split sep s) as [|p ps] eqn:E; simpl in *.
  - discriminate IH.
  - injection IH as ->. reflexivity.
Qed.

Lemma before_first_absent sep s :
  Py.contains sep s = false -> before_first sep s = s.
Proof.
  unfold Py.contains. induction s as [|c s IH]; simpl; [reflexivity|].
  rewrite (N.eqb_sym sep c). destruct (c =? sep)%N; simpl; [discriminate|].
  intros H. f_equal. auto.
Qed.

(** The conditional of the script is the text before the first colon. *)
Lemma code_key_before_colon code :
  code_key code = Py.strip (before_first colon code).
Proof.
  unfold code_key. destruct (Py.contains colon code) eqn:E.
  - rewrite item0_split. reflexivity.
  - rewrite before_first_absent by assumption. reflexivity.
Qed.

Lemma clean_codes_spec value : clean_codes value = spec_extract value.
Proof.
  unfold clean_codes, codes, spec_extract. rewrite map_map.
  apply map_ext. intros piece. apply code_key_before_colon.
Qed.

Lemma length_clean_codes value :
  length (clean_codes value) = length (Py.split semicolon value).
Proof. unfold clean_codes, codes. rewrite !length_map. reflexivity. Qed.

Lemma clean_codes_lookup value i piece :
  Py.split semicolon value !! i = Some piece ->
  clean_codes value !! i = Some (code_key (Py.strip piece)).
Proof.
  intros H. unfold clean_codes, codes.
  rewrite !list_lookup_fmap, H. reflexivity.
Qed.

Lemma lstrip_snoc s c :
  Py.isspace c = false -> Py.lstrip (s ++ [c]) = Py.lstrip s ++ [c].
Proof.
  intros Hc. induction s as [|d s IH]; simpl.
  - rewrite Hc. reflexivity.
  - destruct (Py.isspace d); [assumption | reflexivity].
Qed.

Lemma strip_cons c s :
  Py.isspace c = false -> Py.strip (c :: s) = c :: Py.rstrip s.
Proof.
  intros Hc. unfold Py.strip, Py.rstrip. simpl. rewrite Hc. simpl.
  rewrite lstrip_snoc by assumption. rewrite rev_app_distr. reflexivity.
Qed.

Lemma code_key_colon_first rest : code_key (colon :: rest) = [].
Proof. rewrite code_key_before_colon. reflexivity. Qed.

End Extractor.

(** ** The counts of the codes *)
Section Counts.

Implicit Types (counts : gmap Py.str nat) (code key : Py.str).

Lemma add_occurrences_add o a b :
  add_occurrences (add_occurrences o a) b = add_occurrences o (a + b).
Proof.
  destruct a as [|a], b as [|b]; simpl; try reflexivity.
  - rewrite Nat.add_0_r. reflexivity.
  - f_equal. lia.
Qed.

Lemma count_code_lookup counts code key :
  count_code counts code !! key =
  add_occurrences (counts !! key) (if decide (code_key code = key) then 1 else 0).
Proof.
  unfold count_code. destruct (decide (code_key code = key)) as [->|Hne].
  - destruct (counts !! key) as [n|] eqn:E; rewrite lookup_insert_eq; reflexivity.
  - destruct (counts !! code_key code); rewrite lookup_insert_ne by assumption;
      reflexivity.
Qed.

Lemma count_codes_lookup (cs : list Py.str) counts key :
  fold_left count_code cs counts !! key =
  add_occurrences (counts !! key)
    (length (filter (fun c => c = key) (map code_key cs))).
Proof.
  revert counts. induction cs as [|c cs IH]; intros counts; simpl.
  - reflexivity.
  - rewrite IH, count_code_lookup, add_occurrences_add. f_equal.
    rewrite filter_cons. destruct (decide (code_key c = key)); reflexivity.
Qed.

Lemma count_value_lookup counts (value : Py.str) key :
  count_value counts value !! key =
  add_occurrences (counts !! key)
    (length (filter (fun c => c = key) (extract_codes (Some value)))).
Proof. apply count_codes_lookup. Qed.

Lemma count_values_lookup (values : list (option Py.str)) counts key :
  fold_left count_value (dropna values) counts !! key =
  add_occurrences (counts !! key)
    (length (filter (fun c => c = key) (concat (map extract_codes values)))).
Proof.
  revert counts. induction values as [|[v|] values IH]; intros counts; simpl.
  - reflexivity.
  - rewrite IH, count_value_lookup, add_occurrences_add.
    rewrite filter_app, length_app. reflexivity.
  - apply IH.
Qed.

Lemma count_columns_lookup df (cols : list column) counts key :
  fold_left (count_column df) cols counts !! key =
  add_occurrences (counts !! key)
    (length (filter (fun c => c = key)
                    (concat (map extract_codes (visited_values df cols))))).
Proof.
  revert counts. induction cols as [|col cols IH]; intros counts.
  - reflexivity.
  - cbn [fold_left]. rewrite IH. unfold count_column at 1.
    rewrite count_values_lookup, add_occurrences_add.
    unfold visited_values. cbn [map concat].
    rewrite map_app, concat_app, filter_app, length_app. reflexivity.
Qed.

Lemma limitation_counts_lookup df cols key :
  limitation_counts df cols !! key =
  add_occurrences None (code_occurrences df cols key).
Proof.
  unfold limitation_counts. rewrite count_columns_lookup, lookup_empty.
  reflexivity.
Qed.

(** The top codes are distinct: they are keys of the dict. *)
Lemma is_top_10_NoDup counts (top : list Py.str) :
  is_top_10 counts top -> NoDup top.
Proof.
  intros (sorted & Hperm & _ & ->).
  apply (sublist_NoDup _ (map fst sorted)).
  - change (map fst sorted) with (sorted.*1). rewrite Hperm.
    apply NoDup_fst_map_to_list.
  - apply (fmap_sublist fst). apply sublist_take.
Qed.

Lemma is_top_10_length counts (top : list Py.str) :
  is_top_10 counts top -> length top <= 10.
Proof.
  intros (sorted & _ & _ & ->). rewrite length_map, length_take. lia.
Qed.

End Counts.

(** ** The co-occurrence matrix *)
Section Matrix.

Implicit Types (M : gmap (Py.str * Py.str) nat) (p : Py.str * Py.str).
Implicit Types (top present : list Py.str) (lim : Py.str).

Lemma bump_bump (o : option nat) a b : bump b (bump a o) = bump (a + b) o.
Proof. destruct o; simpl; f_equal; lia. Qed.

Lemma bump_0 (o : option nat) : bump 0 o = o.
Proof. destruct o; simpl; f_equal; lia. Qed.

Lemma count_pairs_from (pre l : list Py.str) M :
  fold_left
    (fun M '(i, lim1) => fold_left (count_pair lim1) (drop (i + 1) (pre ++ l)) M)
    (zip (seq (length pre) (length l)) l) M
  = count_pairs_rec l M.
Proof.
  revert pre M. induction l as [|x l IH]; intros pre M; [reflexivity|].
  cbn [length seq zip zip_with fold_left count_pairs_rec].
  replace (drop (length pre + 1) (pre ++ x :: l)) with l.
  - specialize (IH (pre ++ [x])). rewrite length_app in IH. simpl in IH.
    rewrite <- (Nat.add_1_r (length pre)).
    rewrite <- IH. rewrite <- app_assoc. reflexivity.
  - replace (pre ++ x :: l) with ((pre ++ [x]) ++ l) by (rewrite <- app_assoc; reflexivity).
    rewrite drop_app_length'; [reflexivity|].
    rewrite length_app. reflexivity.
Qed.

Lemma count_pairs_unfold present M :
  count_pairs present M = count_pairs_rec present M.
Proof. apply (count_pairs_from [] present M). Qed.

Lemma increment_lookup M (lim1 lim2 : Py.str) p :
  increment M lim1 lim2 !! p =
  bump (if decide (p = (lim1, lim2)) then 1 else 0) (M !! p).
Proof.
  unfold increment. rewrite lookup_alter.
  destruct (decide ((lim1, lim2) = p)) as [<-|Hne].
  - rewrite decide_True by reflexivity. reflexivity.
  - rewrite decide_False by congruence. symmetry. apply bump_0.
Qed.

Lemma count_pair_lookup M (lim1 lim2 : Py.str) p :
  count_pair lim1 M lim2 !! p =
  bump ((if decide (p = (lim1, lim2)) then 1 else 0)
        + (if decide (p = (lim2, lim1)) then 1 else 0)) (M !! p).
Proof.
  unfold count_pair. rewrite !increment_lookup. apply bump_bump.
Qed.

Lemma hits_inner_cons (lim1 lim2 : Py.str) (rest : list Py.str) p :
  hits_inner lim1 (lim2 :: rest) p =
  ((if decide (p = (lim1, lim2)) then 1 else 0)
   + (if decide (p = (lim2, lim1)) then 1 else 0))
  + hits_inner lim1 rest p.
Proof.
  unfold hits_inner. rewrite !filter_cons.
  destruct (decide (p = (lim1, lim2))), (decide (p = (lim2, lim1))); simpl; lia.
Qed.

Lemma inner_loop_lookup (lim1 : Py.str) (rest : list Py.str) M p :
  fold_left (count_pair lim1) rest M !! p = bump (hits_inner lim1 rest p) (M !! p).
Proof.
  revert M. induction rest as [|lim2 rest IH]; intros M.
  - simpl. symmetry. apply bump_0.
  - cbn [fold_left]. rewrite IH, count_pair_lookup, bump_bump, hits_inner_cons.
    reflexivity.
Qed.

Lemma count_pairs_rec_lookup present M p :
  count_pairs_rec present M !! p = bump (hits present p) (M !! p).
Proof.
  revert M. induction present as [|lim1 rest IH]; intros M.
  - simpl. symmetry. apply bump_0.
  - cbn [count_pairs_rec hits]. rewrite IH, inner_loop_lookup, bump_bump.
    reflexivity.
Qed.

Lemma cooccur_value_lookup top M (value : option Py.str) p :
  cooccur_value top M value !! p = bump (value_hits top p value) (M !! p).
Proof.
  destruct value as [v|]; simpl.
  - rewrite count_pairs_unfold. apply count_pairs_rec_lookup.
  - symmetry. apply bump_0.
Qed.

Lemma cooccur_values_lookup top (values : list (option Py.str)) M p :
  fold_left (cooccur_value top) values M !! p =
  bump (total_hits top p values) (M !! p).
Proof.
  revert M. induction values as [|v values IH]; intros M.
  - simpl. symmetry. apply bump_0.
  - cbn [fold_left]. rewrite IH, cooccur_value_lookup, bump_bump. reflexivity.
Qed.

Lemma total_hits_app top p (l1 l2 : list (option Py.str)) :
  total_hits top p (l1 ++ l2) = total_hits top p l1 + total_hits top p l2.
Proof. apply sum_list_with_app. Qed.

Lemma cooccur_columns_lookup top df (cols : list column) M p :
  fold_left (cooccur_column top df) cols M !! p =
  bump (total_hits top p (visited_values df cols)) (M !! p).
Proof.
  revert M. induction cols as [|col cols IH]; intros M.
  - simpl. symmetry. apply bump_0.
  - cbn [fold_left]. rewrite IH. unfold cooccur_column at 1.
    rewrite cooccur_values_lookup, bump_bump.
    unfold visited_values. cbn [map concat]. rewrite total_hits_app.
    reflexivity.
Qed.

Lemma zero_matrix_lookup top (lim1 lim2 : Py.str) :
  zero_matrix top !! (lim1, lim2) =
  if decide (lim1 ∈ top /\ lim2 ∈ top) then Some 0 else None.
Proof.
  unfold zero_matrix. destruct (decide (lim1 ∈ top /\ lim2 ∈ top)) as [H|H].
  - apply lookup_gset_to_gmap_Some. split; [|reflexivity].
    apply elem_of_list_to_set, list_elem_of_In, in_prod;
      apply list_elem_of_In; tauto.
  - apply lookup_gset_to_gmap_None. intros Hin. apply H.
    apply elem_of_list_to_set, list_elem_of_In, in_prod_iff in Hin.
    rewrite <- !list_elem_of_In in Hin. exact Hin.
Qed.

(** Every cell of the finished matrix: the cell of the zero matrix plus the
    increments of all visited cells. *)
Lemma cooccurrence_matrix_lookup top df cols (lim1 lim2 : Py.str) :
  cooccurrence_matrix top df cols !! (lim1, lim2) =
  if decide (lim1 ∈ top /\ lim2 ∈ top)
  then Some (total_hits top (lim1, lim2) (visited_values df cols))
  else None.
Proof.
  unfold cooccurrence_matrix.
  rewrite cooccur_columns_lookup, zero_matrix_lookup.
  destruct (decide (lim1 ∈ top /\ lim2 ∈ top)); reflexivity.
Qed.

(** *** The increments of one cell *)

Lemma hits_inner_sym (lim1 : Py.str) (rest : list Py.str) (a b : Py.str) :
  hits_inner lim1 rest (a, b) = hits_inner lim1 rest (b, a).
Proof.
  induction rest as [|lim2 rest IH]; [reflexivity|].
  rewrite !hits_inner_cons, IH.
  repeat case_decide; simplify_eq; lia.
Qed.

Lemma hits_sym present (a b : Py.str) : hits present (a, b) = hits present (b, a).
Proof.
  induction present as [|lim1 rest IH]; [reflexivity|].
  simpl. rewrite IH, hits_inner_sym. reflexivity.
Qed.

Lemma hits_inner_absent (lim1 : Py.str) (rest : list Py.str) (a b : Py.str) :
  a <> lim1 -> b <> lim1 -> hits_inner lim1 rest (a, b) = 0.
Proof.
  intros Ha Hb. induction rest as [|lim2 rest IH]; [reflexivity|].
  rewrite hits_inner_cons, IH. repeat case_decide; simplify_eq; lia.
Qed.

Lemma hits_inner_NoDup (lim1 : Py.str) (rest : list Py.str) (a b : Py.str) :
  NoDup rest -> lim1 ∉ rest ->
  hits_inner lim1 rest (a, b) =
  if decide ((a = lim1 /\ b ∈ rest) \/ (b = lim1 /\ a ∈ rest)) then 1 else 0.
Proof.
  intros Hnd Hx. induction Hnd as [|lim2 rest Hy Hnd IH].
  - rewrite decide_False; [reflexivity|]. intros [[_ H]|[_ H]]; inversion H.
  - rewrite hits_inner_cons, IH by (rewrite elem_of_cons in Hx; tauto).
    repeat case_decide; try lia; exfalso;
      rewrite ?elem_of_cons, ?pair_equal_spec in *; intuition congruence.
Qed.

(** With distinct labels a cell is incremented once when both of its labels
    are present and differ, and not at all otherwise. *)
Lemma hits_NoDup present (a b : Py.str) :
  NoDup present ->
  hits present (a, b) =
  if decide (a ∈ present /\ b ∈ present /\ a <> b) then 1 else 0.
Proof.
  intros Hnd. induction Hnd as [|lim1 rest Hx Hnd IH].
  - rewrite decide_False; [reflexivity|]. intros [H _]; inversion H.
  - cbn [hits]. rewrite IH, hits_inner_NoDup by assumption.
    repeat case_decide; try lia; exfalso;
      rewrite ?elem_of_cons, ?pair_equal_spec in *; intuition congruence.
Qed.

Lemma present_limitations_NoDup top (cleaned : list Py.str) :
  NoDup top -> NoDup (present_limitations top cleaned).
Proof. apply NoDup_filter. Qed.

Lemma elem_of_present_limitations top (cleaned : list Py.str) lim :
  lim ∈ present_limitations top cleaned <-> lim ∈ cleaned /\ lim ∈ top.
Proof. unfold present_limitations. rewrite list_elem_of_filter. reflexivity. Qed.

Lemma value_hits_sym top (a b : Py.str) (value : option Py.str) :
  value_hits top (a, b) value = value_hits top (b, a) value.
Proof. destruct value; [apply hits_sym | reflexivity]. Qed.

Lemma total_hits_sym top (a b : Py.str) (values : list (option Py.str)) :
  total_hits top (a, b) values = total_hits top (b, a) values.
Proof.
  induction values as [|v values IH]; [reflexivity|].
  unfold total_hits in *. simpl. rewrite IH, value_hits_sym. reflexivity.
Qed.

Lemma value_hits_NoDup top (a b : Py.str) (value : option Py.str) :
  NoDup top -> a ∈ top -> b ∈ top ->
  value_hits top (a, b) value =
  if decide (a ∈ extract_codes value /\ b ∈ extract_codes value /\ a <> b)
  then 1 else 0.
Proof.
  intros Hnd Ha Hb. destruct value as [v|]; cbn [value_hits extract_codes].
  - rewrite hits_NoDup by (apply present_limitations_NoDup; assumption).
    repeat case_decide; try reflexivity; exfalso;
      rewrite !elem_of_present_limitations in *; tauto.
  - rewrite decide_False; [reflexivity|]. intros [H _]; inversion H.
Qed.

Lemma total_hits_diagonal top (a : Py.str) (values : list (option Py.str)) :
  NoDup top -> a ∈ top -> total_hits top (a, a) values = 0.
Proof.
  intros Hnd Ha. induction values as [|v values IH]; [reflexivity|].
  unfold total_hits in *. simpl. rewrite IH, value_hits_NoDup by assumption.
  rewrite decide_False by tauto. reflexivity.
Qed.

Lemma total_hits_fields top (a b : Py.str) (values : list (option Py.str)) :
  NoDup top -> a ∈ top -> b ∈ top -> a <> b ->
  total_hits top (a, b) values =
  length (filter (fun value => a ∈ extract_codes value /\
                               b ∈ extract_codes value) values).
Proof.
  intros Hnd Ha Hb Hab. induction values as [|v values IH]; [reflexivity|].
  unfold total_hits in *. simpl. rewrite IH, value_hits_NoDup by assumption.
  rewrite filter_cons. repeat case_decide; try reflexivity; exfalso; tauto.
Qed.

Lemma total_hits_le top (a b : Py.str) (values : list (option Py.str)) :
  NoDup top -> a ∈ top -> b ∈ top ->
  total_hits top (a, b) values <= length values.
Proof.
  intros Hnd Ha Hb. induction values as [|v values IH]; [reflexivity|].
  unfold total_hits in *. simpl. rewrite value_hits_NoDup by assumption.
  case_decide; lia.
Qed.

(** What the loops compute: a cell off the diagonal counts the visited
    cells - pairs of a study and a limitation column - whose codes contain
    both labels. *)
Lemma cooccurrence_cell_fields top df cols (a b : Py.str) :
  NoDup top -> a ∈ top -> b ∈ top -> a <> b ->
  cooccurrence_matrix top df cols !! (a, b) = Some (fields_with_both df cols a b).
Proof.
  intros Hnd Ha Hb Hab. rewrite cooccurrence_matrix_lookup.
  rewrite decide_True by tauto. f_equal. apply total_hits_fields; assumption.
Qed.

Lemma length_visited_values df (cols : list column) :
  length (visited_values df cols) = length cols * length df.
Proof.
  unfold visited_values. induction cols as [|col cols IH]; [reflexivity|].
  cbn [map concat]. rewrite length_app, IH.
  unfold column_values. rewrite length_map. simpl. reflexivity.
Qed.

End Matrix.

(** * The properties of the specification *)

(** ** The code extractor *)

(** C5: for a field that is not missing the extractor returns what the
    specification describes - the string split on [;], every piece trimmed,
    cut before its first [:] when it has one, and trimmed again - one token
    per piece, in order, duplicates kept.  "A: reason one; B: reason two"
    gives A, B and "A;B;A" gives A, B, A. *)
Theorem extractor_matches_description :
  (forall value : Py.str, extract_codes (Some value) = spec_extract value) /\
  extract_codes (Some (Py.of_string "A: reason one; B: reason two")) =
    [Py.of_string "A"; Py.of_string "B"] /\
  extract_codes (Some (Py.of_string "A;B;A")) =
    [Py.of_string "A"; Py.of_string "B"; Py.of_string "A"].
Proof.
  split; [|split].
  - intros value. apply clean_codes_spec.
  - reflexivity.
  - reflexivity.
Qed.

(** C7: a missing field gives no token, and adds nothing to a count: the
    loop over a column leaves the counts of the codes and the matrix as
    they are without that cell. *)
Theorem missing_field_no_codes :
  extract_codes None = [] /\
  (forall (counts : gmap Py.str nat) (before after : list (option Py.str)),
      fold_left count_value (dropna (before ++ None :: after)) counts =
      fold_left count_value (dropna (before ++ after)) counts) /\
  (forall (top : list Py.str) (M : gmap (Py.str * Py.str) nat)
          (before after : list (option Py.str)),
      fold_left (cooccur_value top) (before ++ None :: after) M =
      fold_left (cooccur_value top) (before ++ after) M).
Proof.
  split; [reflexivity|]. split.
  - intros counts before after. unfold dropna.
    rewrite !omap_app. reflexivity.
  - intros top M before after. rewrite !fold_left_app. reflexivity.
Qed.

(** C8: a piece that is empty once trimmed is not dropped: its token is the
    empty string; so is the token of a piece that begins with a colon. *)
Theorem empty_piece_gives_empty_token (value : Py.str) (i : nat) (piece : Py.str) :
  Py.split semicolon value !! i = Some piece ->
  Py.strip piece = [] \/
  (exists rest, piece = colon :: rest) \/
  (exists rest, Py.strip piece = colon :: rest) ->
  clean_codes value !! i = Some [].
Proof.
  intros Hpiece Hcase.
  etrans; [apply clean_codes_lookup; eassumption|]. f_equal.
  destruct Hcase as [-> | [[rest ->] | [rest ->]]].
  - reflexivity.
  - rewrite strip_cons by reflexivity. apply code_key_colon_first.
  - apply code_key_colon_first.
Qed.

Lemma empty_piece_gives_empty_token_witness :
  clean_codes Sample.ragged !! 1 = Some [] /\
  clean_codes Sample.ragged !! 2 = Some [].
Proof.
  split.
  - apply (empty_piece_gives_empty_token Sample.ragged 1 (Py.of_string " ")).
    + reflexivity.
    + left. reflexivity.
  - apply (empty_piece_gives_empty_token Sample.ragged 2 (Py.of_string ":y")).
    + reflexivity.
    + right. left. exists (Py.of_string "y"). reflexivity.
Defined.

(** ** The code frequency table *)

(** C2, as the specification states it, fails: a study that writes one code
    twice is counted twice. *)
Lemma count_is_not_number_of_records :
  Count <$> (analyze_specific_limitations [Sample.repeated] limitation_columns
               !! Sample.A) = Some 2 /\
  records_containing limitation_columns [Sample.repeated] Sample.A = 1 /\
  Count <$> (analyze_specific_limitations [Sample.repeated] limitation_columns
               !! Sample.A)
  <> Some (records_containing limitation_columns [Sample.repeated] Sample.A).
Proof.
  split; [|split].
  - vm_compute. reflexivity.
  - vm_compute. reflexivity.
  - vm_compute. discriminate.
Qed.

(** C2, amended: the table maps a code to the number of tokens that give
    it, over all limitation columns of all studies - a study counts once for
    every such token - a code without a token has no row, and the percentage
    of a row is its count divided by the number of studies, times 100. *)
Theorem frequency_table_counts_tokens (df : dataframe) (cols : list column)
  (code : Py.str) :
  analyze_specific_limitations df cols !! code =
  match code_occurrences df cols code with
  | 0 => None
  | S _ as n => Some (LimitationRow n (percentage n (length df)))
  end.
Proof.
  unfold analyze_specific_limitations.
  rewrite lookup_fmap, limitation_counts_lookup.
  destruct (code_occurrences df cols code); reflexivity.
Qed.

(** *** Tokens and studies

    The count of a code is never below the number of studies that report
    it, and is that number when no study writes the code twice. *)

Lemma occurrences_column (df : dataframe) (col : column) (code : Py.str) :
  length (filter (fun c => c = code)
                 (concat (map extract_codes (column_values df col)))) =
  sum_list_with
    (fun r => length (filter (fun c => c = code) (extract_codes (cell r col))))
    df.
Proof.
  induction df as [|r df IH]; [reflexivity|].
  cbn [column_values map concat sum_list_with].
  rewrite filter_app, length_app. f_equal. exact IH.
Qed.

Lemma sum_list_with_add {A : Type} (f g : A -> nat) (l : list A) :
  sum_list_with (fun x => f x + g x) l = sum_list_with f l + sum_list_with g l.
Proof. induction l as [|x l IH]; simpl; lia. Qed.

Lemma sum_list_with_pointwise {A : Type} (f g : A -> nat) (l : list A) :
  (forall x, f x = g x) -> sum_list_with f l = sum_list_with g l.
Proof. intros H. induction l as [|x l IH]; simpl; [|rewrite H, IH]; reflexivity. Qed.

Lemma code_occurrences_by_study (df : dataframe) (cols : list column)
  (code : Py.str) :
  code_occurrences df cols code =
  sum_list_with
    (fun r => length (filter (fun c => c = code) (record_codes cols r))) df.
Proof.
  unfold code_occurrences, visited_values, record_codes.
  induction cols as [|col cols IH].
  - simpl. induction df as [|r df IHdf]; [reflexivity | exact IHdf].
  - cbn [map concat].
    rewrite map_app, concat_app, filter_app, length_app, IH, occurrences_column.
    rewrite <- sum_list_with_add. apply sum_list_with_pointwise. intros r.
    rewrite filter_app, length_app. reflexivity.
Qed.

Lemma records_containing_le_occurrences (df : dataframe) (cols : list column)
  (code : Py.str) :
  records_containing cols df code <= code_occurrences df cols code.
Proof.
  rewrite code_occurrences_by_study. unfold records_containing.
  induction df as [|r df IH]; [reflexivity|].
  rewrite filter_cons. cbn [sum_list_with].
  destruct (decide (code ∈ record_codes cols r)) as [Hin|Hin]; [|lia].
  assert (1 <= length (filter (fun c => c = code) (record_codes cols r))).
  { induction (record_codes cols r) as [|c l IHl]; [inversion Hin|].
    rewrite filter_cons. destruct (decide (c = code)); [simpl; lia|].
    apply IHl. apply elem_of_cons in Hin as [->|Hin]; [congruence|assumption]. }
  simpl. lia.
Qed.

Lemma occurrences_without_repeats (df : dataframe) (cols : list column)
  (code : Py.str) :
  (forall r, r ∈ df ->
     length (filter (fun c => c = code) (record_codes cols r)) <= 1) ->
  code_occurrences df cols code = records_containing cols df code.
Proof.
  rewrite code_occurrences_by_study. unfold records_containing.
  induction df as [|r df IH]; intros Hone; [reflexivity|].
  rewrite filter_cons. cbn [sum_list_with].
  rewrite IH by (intros; apply Hone; right; assumption).
  pose proof (Hone r ltac:(left)) as Hr.
  destruct (decide (code ∈ record_codes cols r)) as [Hin|Hin].
  - assert (1 <= length (filter (fun c => c = code) (record_codes cols r))).
    { apply list_elem_of_In in Hin.
      assert (Hf : code ∈ filter (fun c => c = code) (record_codes cols r))
        by (apply list_elem_of_filter; split;
            [reflexivity | apply list_elem_of_In; assumption]).
      destruct (filter (fun c => c = code) (record_codes cols r));
        [inversion Hf | simpl; lia]. }
    simpl. lia.
  - assert (Hnil : filter (fun c => c = code) (record_codes cols r) = []).
    { destruct (filter (fun c => c = code) (record_codes cols r)) as [|c l] eqn:E;
        [reflexivity|].
      assert (Hc : c ∈ filter (fun c => c = code) (record_codes cols r))
        by (rewrite E; left).
      apply list_elem_of_filter in Hc as [-> Hc]. contradiction. }
    rewrite Hnil. reflexivity.
Qed.

(** ** The co-occurrence matrix *)

(** C6: the finished matrix is symmetric, whatever the studies and the
    top codes. *)
Theorem cooccurrence_matrix_symmetric (top : list Py.str) (df : dataframe)
  (cols : list column) (i j : nat) :
  entry top (cooccurrence_matrix top df cols) i j =
  entry top (cooccurrence_matrix top df cols) j i.
Proof.
  unfold entry.
  destruct (top !! i) as [a|], (top !! j) as [b|]; try reflexivity.
  rewrite !cooccurrence_matrix_lookup, total_hits_sym.
  destruct (decide (a ∈ top /\ b ∈ top)), (decide (b ∈ top /\ a ∈ top));
    try reflexivity; exfalso; tauto.
Qed.

(** The diagonal stays zero for any list of distinct labels. *)
Lemma diagonal_zero_NoDup (top : list Py.str) (df : dataframe)
  (cols : list column) (i : nat) :
  NoDup top -> i < length top ->
  entry top (cooccurrence_matrix top df cols) i i = Some 0.
Proof.
  intros Hnd Hi. unfold entry.
  destruct (lookup_lt_is_Some_2 top i Hi) as [a Ha]. rewrite Ha.
  assert (a ∈ top) by (apply list_elem_of_lookup; eauto).
  rewrite cooccurrence_matrix_lookup, decide_True by tauto.
  rewrite total_hits_diagonal by assumption. reflexivity.
Qed.

(** C10: every entry on the diagonal of the matrix the analysis computes
    is 0. *)
Theorem diagonal_stays_zero (df : dataframe) (cols : list column)
  (top : list Py.str) (M : gmap (Py.str * Py.str) nat) (i : nat) :
  analyze_limitation_cooccurrence df cols top M ->
  i < length top ->
  entry top M i i = Some 0.
Proof.
  intros [Htop ->] Hi. apply diagonal_zero_NoDup; [|assumption].
  eapply is_top_10_NoDup. eassumption.
Qed.

Lemma diagonal_stays_zero_witness :
  entry [Sample.B; Sample.A]
    (cooccurrence_matrix [Sample.B; Sample.A] [Sample.both_twice]
       limitation_columns) 0 0 = Some 0.
Proof.
  apply (diagonal_stays_zero [Sample.both_twice] limitation_columns).
  - split; [|reflexivity]. top_10_by [(Sample.B, 2); (Sample.A, 2)].
  - simpl. lia.
Defined.

(** *** A record with at most one qualifying code *)

Lemma count_pairs_short (present : list Py.str)
  (M : gmap (Py.str * Py.str) nat) :
  length present <= 1 -> count_pairs present M = M.
Proof.
  destruct present as [|lim1 [|lim2 rest]]; simpl; intros H;
    [reflexivity | reflexivity | lia].
Qed.

Lemma elem_of_record_codes (cols : list column) (r : study) (col : column)
  (code : Py.str) :
  col ∈ cols -> code ∈ extract_codes (cell r col) -> code ∈ record_codes cols r.
Proof.
  intros Hcol Hcode. unfold record_codes.
  apply list_elem_of_In, in_concat. exists (extract_codes (cell r col)).
  split; [|apply list_elem_of_In; assumption].
  apply in_map_iff. exists col. split; [reflexivity|].
  apply list_elem_of_In. assumption.
Qed.

Lemma cooccur_value_single (top : list Py.str) (cols : list column) (r : study)
  (col : column) (M : gmap (Py.str * Py.str) nat) :
  NoDup top -> size (record_code_set top cols r) <= 1 -> col ∈ cols ->
  cooccur_value top M (cell r col) = M.
Proof.
  intros Hnd Hsize Hcol. destruct (cell r col) as [v|] eqn:Hcell; [|reflexivity].
  simpl. apply count_pairs_short.
  set (present := present_limitations top (clean_codes v)).
  assert (Hpresent : NoDup present) by (apply present_limitations_NoDup; assumption).
  rewrite <- (size_list_to_set (C := gset Py.str) present Hpresent).
  etrans; [|exact Hsize]. apply subseteq_size.
  intros code Hcode. apply elem_of_list_to_set in Hcode.
  apply elem_of_present_limitations in Hcode as [Hin Htop].
  apply elem_of_list_to_set, list_elem_of_filter. split; [assumption|].
  apply (elem_of_record_codes cols r col); [assumption|].
  rewrite Hcell. exact Hin.
Qed.

Lemma cooccur_columns_without (top : list Py.str) (r : study)
  (df1 df2 : dataframe) (cols : list column) (M : gmap (Py.str * Py.str) nat) :
  (forall col M', col ∈ cols -> cooccur_value top M' (cell r col) = M') ->
  fold_left (cooccur_column top (df1 ++ r :: df2)) cols M =
  fold_left (cooccur_column top (df1 ++ df2)) cols M.
Proof.
  revert M. induction cols as [|col cols IH]; intros M Hstep; [reflexivity|].
  cbn [fold_left]. rewrite IH by (intros; apply Hstep; right; assumption).
  f_equal. unfold cooccur_column, column_values.
  rewrite !map_app, !fold_left_app. cbn [map fold_left].
  rewrite Hstep by left. reflexivity.
Qed.

(** C9: a study whose set of qualifying codes, over all its fields, has at
    most one element changes no cell: none of its fields changes the matrix
    when the loop reaches it, and the finished matrix is the one of the
    dataset without that study. *)
Theorem single_code_record_no_contribution (top : list Py.str)
  (cols : list column) (r : study) :
  NoDup top ->
  size (record_code_set top cols r) <= 1 ->
  (forall (col : column) (M : gmap (Py.str * Py.str) nat),
      col ∈ cols -> cooccur_value top M (cell r col) = M) /\
  (forall df1 df2 : dataframe,
      cooccurrence_matrix top (df1 ++ r :: df2) cols =
      cooccurrence_matrix top (df1 ++ df2) cols).
Proof.
  intros Hnd Hsize.
  assert (Hstep : forall col M, col ∈ cols -> cooccur_value top M (cell r col) = M)
    by (intros; eapply cooccur_value_single; eassumption).
  split; [exact Hstep|]. intros df1 df2.
  apply cooccur_columns_without. exact Hstep.
Qed.

Lemma single_code_record_no_contribution_witness :
  cooccurrence_matrix [Sample.B; Sample.A]
    ([Sample.both_twice] ++ Sample.repeated :: [Sample.apart])
    limitation_columns =
  cooccurrence_matrix [Sample.B; Sample.A]
    ([Sample.both_twice] ++ [Sample.apart]) limitation_columns.
Proof.
  apply (single_code_record_no_contribution [Sample.B; Sample.A]
           limitation_columns Sample.repeated).
  - compute_done.
  - vm_compute. lia.
Defined.

(** *** What one field with three qualifying codes does *)

Lemma field_three_codes (top : list Py.str) (M : gmap (Py.str * Py.str) nat)
  (v : Py.str) (a b c : Py.str) (p : Py.str * Py.str) :
  NoDup top -> a <> b -> b <> c -> a <> c ->
  (forall lim, lim ∈ present_limitations top (clean_codes v) <-> lim ∈ [a; b; c]) ->
  cooccur_value top M (Some v) !! p =
  bump (if decide (p ∈ [(a, b); (b, a); (b, c); (c, b); (a, c); (c, a)])
        then 1 else 0) (M !! p).
Proof.
  intros Hnd Hab Hbc Hac Hpresent. rewrite cooccur_value_lookup. f_equal.
  destruct p as [x y]. cbn [value_hits].
  rewrite hits_NoDup by (apply present_limitations_NoDup; assumption).
  set (present := present_limitations top (clean_codes v)) in *.
  assert (Hx : x ∈ [a; b; c] <-> x = a \/ x = b \/ x = c).
  { rewrite !elem_of_cons, elem_of_nil. tauto. }
  assert (Hy : y ∈ [a; b; c] <-> y = a \/ y = b \/ y = c).
  { rewrite !elem_of_cons, elem_of_nil. tauto. }
  assert (Hp : (x, y) ∈ [(a, b); (b, a); (b, c); (c, b); (a, c); (c, a)] <->
               (x = a /\ y = b) \/ (x = b /\ y = a) \/ (x = b /\ y = c) \/
               (x = c /\ y = b) \/ (x = a /\ y = c) \/ (x = c /\ y = a)).
  { rewrite !elem_of_cons, elem_of_nil, !pair_equal_spec. tauto. }
  destruct (decide (x ∈ present /\ y ∈ present /\ x <> y)) as [H|H];
    [rewrite decide_True | rewrite decide_False]; try reflexivity;
    rewrite Hp; rewrite !Hpresent, Hx, Hy in H.
  - destruct H as ([-> | [-> | ->]] & [-> | [-> | ->]] & Hne);
      try congruence; tauto.
  - intros Hcase. apply H.
    repeat destruct Hcase as [Hcase|Hcase]; destruct Hcase as [-> ->];
      (split; [tauto|split; [tauto|congruence]]).
Qed.

(** *** The sum of the entries off the diagonal *)

Lemma sum_list_with_le_const {A : Type} (f : A -> nat) (l : list A) (bound : nat) :
  (forall x, x ∈ l -> f x <= bound) -> sum_list_with f l <= length l * bound.
Proof.
  induction l as [|x l IH]; intros Hf; simpl; [lia|].
  assert (f x <= bound) by (apply Hf; left).
  assert (sum_list_with f l <= length l * bound)
    by (apply IH; intros; apply Hf; right; assumption).
  lia.
Qed.

Lemma sum_list_with_skip (f : nat -> nat) (l : list nat) (i bound : nat) :
  (forall j, f j <= bound) -> NoDup l ->
  sum_list_with (fun j => if decide (i = j) then 0 else f j) l
  <= (length l - (if decide (i ∈ l) then 1 else 0)) * bound.
Proof.
  intros Hf Hnd. induction Hnd as [|j l Hj Hnd IH]; simpl; [lia|].
  pose proof (Hf j) as Hfj.
  destruct (decide (i = j)) as [->|Hij].
  - rewrite decide_True by left.
    rewrite decide_False in IH by assumption. lia.
  - destruct (decide (i ∈ l)) as [Hin|Hin].
    + rewrite decide_True by (right; assumption).
      assert (1 <= length l) by (destruct l; [inversion Hin | simpl; lia]).
      nia.
    + rewrite decide_False by (intros [?|?]%elem_of_cons; tauto). nia.
Qed.

Lemma choose2_double (n : nat) : n * (n - 1) = 2 * choose2 n.
Proof.
  unfold choose2.
  assert (H : exists k, n * (n - 1) = 2 * k).
  { induction n as [|n [k IH]]; [exists 0; reflexivity|].
    exists (k + n). destruct n; simpl in *; nia. }
  destruct H as [k ->]. rewrite (Nat.mul_comm 2 k), Nat.div_mul by discriminate.
  lia.
Qed.

Lemma entry_le_visited (top : list Py.str) (df : dataframe) (cols : list column)
  (i j : nat) :
  NoDup top ->
  default 0 (entry top (cooccurrence_matrix top df cols) i j)
  <= length cols * length df.
Proof.
  intros Hnd. unfold entry.
  destruct (top !! i) as [a|] eqn:Ha, (top !! j) as [b|] eqn:Hb; simpl; try lia.
  assert (a ∈ top) by (apply list_elem_of_lookup; eauto).
  assert (b ∈ top) by (apply list_elem_of_lookup; eauto).
  rewrite cooccurrence_matrix_lookup, decide_True by tauto. simpl.
  rewrite <- length_visited_values. apply total_hits_le; assumption.
Qed.

(** What the loops guarantee: every visited cell - a study and one of its
    limitation columns - adds at most C(N,2) pairs. *)
Lemma off_diagonal_bound_fields (top : list Py.str) (df : dataframe)
  (cols : list column) :
  NoDup top ->
  off_diagonal_sum top (cooccurrence_matrix top df cols) / 2
  <= length cols * length df * choose2 (length top).
Proof.
  intros Hnd. set (V := length cols * length df).
  assert (Hsum : off_diagonal_sum top (cooccurrence_matrix top df cols)
                 <= length top * ((length top - 1) * V)).
  { unfold off_diagonal_sum.
    etrans; [apply (sum_list_with_le_const _ _ ((length top - 1) * V))|].
    - intros i Hi.
      etrans; [apply (sum_list_with_skip _ _ i V)|].
      + intros j. apply entry_le_visited. assumption.
      + apply NoDup_seq.
      + rewrite decide_True by assumption. rewrite length_seq. reflexivity.
    - rewrite length_seq. reflexivity. }
  apply Nat.Div0.div_le_upper_bound.
  pose proof (choose2_double (length top)) as Hc. nia.
Qed.

(** ** Where the loops and the specification part

    The loop visits the cells of the table one limitation column after the
    other and pairs the codes of one cell only; the heat map it feeds is
    titled "Percentage of Studies Reporting Both". *)

(** C1: the matrix at two small datasets.  One study that writes A and B
    together in two of its columns puts 2 in the cell (A,B); one study that
    writes A in one column and B in another puts 0 there.  In both datasets
    exactly one study reports both codes. *)
Theorem cell_counts_fields_not_studies :
  (analyze_limitation_cooccurrence [Sample.both_twice] limitation_columns
     [Sample.B; Sample.A]
     (cooccurrence_matrix [Sample.B; Sample.A] [Sample.both_twice]
        limitation_columns) /\
   cooccurrence_matrix [Sample.B; Sample.A] [Sample.both_twice]
     limitation_columns !! (Sample.A, Sample.B) = Some 2 /\
   records_with_both [Sample.B; Sample.A] limitation_columns
     [Sample.both_twice] Sample.A Sample.B = 1) /\
  (analyze_limitation_cooccurrence [Sample.apart] limitation_columns
     [Sample.B; Sample.A]
     (cooccurrence_matrix [Sample.B; Sample.A] [Sample.apart]
        limitation_columns) /\
   cooccurrence_matrix [Sample.B; Sample.A] [Sample.apart]
     limitation_columns !! (Sample.A, Sample.B) = Some 0 /\
   records_with_both [Sample.B; Sample.A] limitation_columns
     [Sample.apart] Sample.A Sample.B = 1).
Proof.
  split; (split; [|split]).
  - split; [|reflexivity]. top_10_by [(Sample.B, 2); (Sample.A, 2)].
  - vm_compute. reflexivity.
  - vm_compute. reflexivity.
  - split; [|reflexivity]. top_10_by [(Sample.B, 1); (Sample.A, 1)].
  - vm_compute. reflexivity.
  - vm_compute. reflexivity.
Qed.

(** C3: the matrix at a study whose qualifying codes are A, B and C, each
    written in a column of its own: the set of its codes is {A,B,C}, and no
    cell is incremented - the finished matrix is the zero matrix. *)
Theorem three_codes_apart_increment_nothing :
  analyze_limitation_cooccurrence [Sample.three_apart] limitation_columns
    [Sample.C; Sample.B; Sample.A]
    (cooccurrence_matrix [Sample.C; Sample.B; Sample.A] [Sample.three_apart]
       limitation_columns) /\
  record_code_set [Sample.C; Sample.B; Sample.A] limitation_columns
    Sample.three_apart = {[Sample.A; Sample.B; Sample.C]} /\
  cooccurrence_matrix [Sample.C; Sample.B; Sample.A] [Sample.three_apart]
    limitation_columns = zero_matrix [Sample.C; Sample.B; Sample.A] /\
  zero_matrix [Sample.C; Sample.B; Sample.A] !! (Sample.A, Sample.B) = Some 0.
Proof.
  split; [|split; [|split]].
  - split; [|reflexivity].
    top_10_by [(Sample.C, 1); (Sample.B, 1); (Sample.A, 1)].
  - vm_compute. reflexivity.
  - vm_compute. reflexivity.
  - vm_compute. reflexivity.
Qed.

(** C4: the matrix at one study that writes all ten top codes in two of its
    columns: half the sum of the entries off the diagonal is 90, and one
    study times C(10,2) is 45. *)
Theorem off_diagonal_sum_exceeds_bound :
  analyze_limitation_cooccurrence [Sample.all_ten_twice] limitation_columns
    Sample.ten_codes
    (cooccurrence_matrix Sample.ten_codes [Sample.all_ten_twice]
       limitation_columns) /\
  length Sample.ten_codes = 10 /\
  off_diagonal_sum Sample.ten_codes
    (cooccurrence_matrix Sample.ten_codes [Sample.all_ten_twice]
       limitation_columns) / 2 = 90 /\
  length [Sample.all_ten_twice] * choose2 (length Sample.ten_codes) = 45.
Proof.
  split; [|split; [|split]].
  - split; [|reflexivity].
    top_10_by (map (fun code => (code, 2)) Sample.ten_codes).
  - reflexivity.
  - vm_compute. reflexivity.
  - vm_compute. reflexivity.
Qed.

(** * Further properties of the script *)

(** ** Trimming and splitting *)
Section Strings.

Implicit Types (s t : Py.str) (c sep : N).

Lemma elem_of_lstrip c s : c ∈ Py.lstrip s -> c ∈ s.
Proof.
  induction s as [|d s IH]; simpl; [auto|].
  destruct (Py.isspace d); [|auto]. intros H. right. auto.
Qed.

Lemma elem_of_rstrip c s : c ∈ Py.rstrip s -> c ∈ s.
Proof.
  unfold Py.rstrip. intros H.
  apply list_elem_of_In in H. rewrite <- in_rev in H.
  apply list_elem_of_In, elem_of_lstrip, list_elem_of_In in H.
  rewrite <- in_rev in H. apply list_elem_of_In. exact H.
Qed.

Lemma elem_of_strip c s : c ∈ Py.strip s -> c ∈ s.
Proof. intros H. apply elem_of_lstrip, elem_of_rstrip, H. Qed.

Lemma lstrip_head s :
  Py.lstrip s = [] \/
  exists c t, Py.lstrip s = c :: t /\ Py.isspace c = false.
Proof.
  induction s as [|d s IH]; simpl; [left; reflexivity|].
  destruct (Py.isspace d) eqn:E; [exact IH|]. right. eauto.
Qed.

Lemma lstrip_idempotent s : Py.lstrip (Py.lstrip s) = Py.lstrip s.
Proof.
  destruct (lstrip_head s) as [-> | (c & t & -> & Hc)]; simpl;
    [|rewrite Hc]; reflexivity.
Qed.

Lemma rstrip_idempotent s : Py.rstrip (Py.rstrip s) = Py.rstrip s.
Proof.
  unfold Py.rstrip. rewrite rev_involutive, lstrip_idempotent. reflexivity.
Qed.

Lemma rstrip_cons c s :
  Py.isspace c = false -> Py.rstrip (c :: s) = c :: Py.rstrip s.
Proof.
  intros Hc. unfold Py.rstrip. simpl.
  rewrite lstrip_snoc by assumption. rewrite rev_app_distr. reflexivity.
Qed.

Lemma lstrip_strip s : Py.lstrip (Py.strip s) = Py.strip s.
Proof.
  unfold Py.strip.
  destruct (lstrip_head s) as [-> | (c & t & -> & Hc)]; [reflexivity|].
  rewrite rstrip_cons by assumption. simpl. rewrite Hc. reflexivity.
Qed.

Lemma strip_idempotent s : Py.strip (Py.strip s) = Py.strip s.
Proof.
  unfold Py.strip at 1. rewrite lstrip_strip.
  unfold Py.strip. apply rstrip_idempotent.
Qed.

Lemma split_no_sep sep s : Forall (fun piece => sep ∉ piece) (Py.split sep s).
Proof.
  induction s as [|c s IH]; simpl.
  - constructor; [|constructor]. intros H. inversion H.
  - destruct (c =? sep)%N eqn:E.
    + constructor; [|exact IH]. intros H. inversion H.
    + apply N.eqb_neq in E.
      destruct (Py.split sep s) as [|p ps];
        [constructor; [|constructor]|].
      * rewrite elem_of_cons, elem_of_nil. intros [Heq|[]]. congruence.
      * apply Forall_cons in IH as [Hp Hps]. constructor; [|assumption].
        rewrite elem_of_cons. intros [Heq|Hin]; [congruence | contradiction].
Qed.

Lemma length_split sep (l : list N) :
  length (Py.split sep l) = S (length (filter (fun c => c = sep) l)).
Proof.
  induction l as [|c l IH]; [reflexivity|].
  rewrite filter_cons. cbn [Py.split].
  destruct (c =? sep)%N eqn:E.
  - apply N.eqb_eq in E. rewrite decide_True by assumption. simpl.
    rewrite IH. reflexivity.
  - apply N.eqb_neq in E. rewrite decide_False by assumption.
    destruct (Py.split sep l) as [|p ps]; simpl in *; [discriminate | exact IH].
Qed.

Lemma before_first_no_sep sep s : sep ∉ before_first sep s.
Proof.
  induction s as [|c s IH]; simpl; [intros H; inversion H|].
  destruct (c =? sep)%N eqn:E; [intros H; inversion H|].
  apply N.eqb_neq in E. rewrite elem_of_cons.
  intros [Heq|Hin]; [congruence | contradiction].
Qed.

Lemma elem_of_before_first c sep s : c ∈ before_first sep s -> c ∈ s.
Proof.
  induction s as [|d s IH]; simpl; [auto|].
  destruct (d =? sep)%N; [intros H; inversion H|].
  intros [->|H]%elem_of_cons; [left | right; auto].
Qed.

Lemma elem_of_codes value code :
  code ∈ codes value ->
  exists piece, piece ∈ Py.split semicolon value /\ code = Py.strip piece.
Proof.
  unfold codes. intros H. apply list_elem_of_fmap in H as (piece & -> & H).
  eauto.
Qed.

Lemma elem_of_clean_codes value token :
  token ∈ clean_codes value ->
  exists piece, piece ∈ Py.split semicolon value /\
                token = Py.strip (before_first colon (Py.strip piece)).
Proof.
  unfold clean_codes. intros H.
  apply list_elem_of_fmap in H as (code & -> & H).
  apply elem_of_codes in H as (piece & Hpiece & ->).
  exists piece. split; [assumption | apply code_key_before_colon].
Qed.

End Strings.

(** X1: every token of the extractor is trimmed and holds neither a
    semicolon nor a colon. *)
Theorem tokens_are_trimmed_codes (value : Py.str) :
  Forall (fun token => (semicolon ∉ token) /\ (colon ∉ token) /\
                       Py.strip token = token)
         (clean_codes value).
Proof.
  apply Forall_forall. intros token Htoken.
  apply elem_of_clean_codes in Htoken as (piece & Hpiece & ->).
  split; [|split].
  - intros H. apply elem_of_strip, elem_of_before_first, elem_of_strip in H.
    pose proof (split_no_sep semicolon value) as Hall.
    rewrite Forall_forall in Hall. exact (Hall piece Hpiece H).
  - intros H. apply elem_of_strip in H.
    exact (before_first_no_sep colon _ H).
  - apply strip_idempotent.
Qed.

(** X2: a field that is not missing gives one token more than it has
    semicolons - at least one, also for the empty string. *)
Theorem token_count_is_semicolons_plus_one (value : list N) :
  length (clean_codes value) =
  S (length (filter (fun c => c = semicolon) value)).
Proof. rewrite length_clean_codes. apply length_split. Qed.

(** X3: the primary topic of a study with a topic area is never missing,
    is trimmed, holds no semicolon, and is made of characters of the topic
    area. *)
Theorem primary_topic_shape (topic_area : Py.str) :
  exists topic,
    primary_topic (Some topic_area) = Some topic /\
    Py.strip topic = topic /\
    (semicolon ∉ topic) /\
    (forall c, c ∈ topic -> c ∈ topic_area) /\
    topic = Py.strip (before_first semicolon topic_area).
Proof.
  exists (Py.strip (before_first semicolon topic_area)).
  split; [|split; [|split; [|split]]].
  - unfold primary_topic. rewrite item0_split. reflexivity.
  - apply strip_idempotent.
  - intros H. apply elem_of_strip in H.
    exact (before_first_no_sep semicolon _ H).
  - intros c H. eapply elem_of_before_first, elem_of_strip, H.
  - reflexivity.
Qed.

(** ** The table of counts as a whole *)
Section Table.

Implicit Types (counts : gmap Py.str nat) (code : Py.str).

Lemma elem_of_visited_values (df : dataframe) (cols : list column)
  (value : option Py.str) :
  value ∈ visited_values df cols <->
  exists r col, r ∈ df /\ col ∈ cols /\ value = cell r col.
Proof.
  unfold visited_values. rewrite list_elem_of_In, in_concat. split.
  - intros (l & Hl & Hv). apply in_map_iff in Hl as (col & <- & Hcol).
    unfold column_values in Hv. apply in_map_iff in Hv as (r & <- & Hr).
    exists r, col. rewrite !list_elem_of_In. auto.
  - intros (r & col & Hr & Hcol & ->). exists (column_values df col). split.
    + apply in_map. apply list_elem_of_In. assumption.
    + unfold column_values. apply (in_map (fun r => cell r col)).
      apply list_elem_of_In. assumption.
Qed.

Lemma filter_eq_length_0 (l : list Py.str) code :
  length (filter (fun c => c = code) l) = 0 <-> code ∉ l.
Proof.
  induction l as [|c l IH]; [split; [intros _ H; inversion H | reflexivity]|].
  rewrite filter_cons, not_elem_of_cons.
  destruct (decide (c = code)) as [->|Hne]; simpl.
  - split; [discriminate | intros [H _]; congruence].
  - rewrite IH. split; [intros H; split; [congruence | assumption] | tauto].
Qed.

Lemma count_code_sum counts (raw : Py.str) :
  sum_counts (count_code counts raw) = S (sum_counts counts).
Proof.
  unfold count_code, sum_counts.
  destruct (counts !! code_key raw) as [n|] eqn:E.
  - rewrite <- insert_delete_eq.
    rewrite map_fold_insert_L; [|intros; lia | apply lookup_delete_eq].
    rewrite (map_fold_delete_L _ _ (code_key raw) n counts);
      [lia | intros; lia | assumption].
  - rewrite map_fold_insert_L; [lia | intros; lia | assumption].
Qed.

Lemma count_codes_sum (cs : list Py.str) counts :
  sum_counts (fold_left count_code cs counts) = sum_counts counts + length cs.
Proof.
  revert counts. induction cs as [|c cs IH]; intros counts; simpl; [lia|].
  rewrite IH, count_code_sum. lia.
Qed.

Lemma count_values_sum (values : list (option Py.str)) counts :
  sum_counts (fold_left count_value (dropna values) counts) =
  sum_counts counts + length (concat (map extract_codes values)).
Proof.
  revert counts. induction values as [|[v|] values IH]; intros counts; simpl.
  - lia.
  - rewrite IH. unfold count_value. rewrite count_codes_sum.
    rewrite length_app. unfold clean_codes. rewrite length_map. lia.
  - apply IH.
Qed.

Lemma count_columns_sum (df : dataframe) (cols : list column) counts :
  sum_counts (fold_left (count_column df) cols counts) =
  sum_counts counts
  + length (concat (map extract_codes (visited_values df cols))).
Proof.
  revert counts. induction cols as [|col cols IH]; intros counts.
  - simpl. lia.
  - cbn [fold_left]. rewrite IH. unfold count_column at 1.
    rewrite count_values_sum. unfold visited_values. cbn [map concat].
    rewrite map_app, concat_app, length_app. lia.
Qed.

Lemma Permutation_concat_map {A B : Type} (g : A -> list B) (l l' : list A) :
  l ≡ₚ l' -> concat (map g l) ≡ₚ concat (map g l').
Proof.
  induction 1 as [|x l l' _ IH|x y l|l l' l'' _ IH1 _ IH2]; simpl.
  - reflexivity.
  - apply Permutation_app_head. exact IH.
  - rewrite !app_assoc. apply Permutation_app_tail, Permutation_app_comm.
  - etrans; eassumption.
Qed.

Lemma visited_values_Permutation (df df' : dataframe) (cols cols' : list column) :
  df ≡ₚ df' -> cols ≡ₚ cols' ->
  visited_values df cols ≡ₚ visited_values df' cols'.
Proof.
  intros Hdf Hcols. unfold visited_values.
  etrans; [apply Permutation_concat_map; exact Hcols|].
  clear Hcols. induction cols' as [|col cols' IH]; simpl; [reflexivity|].
  apply Permutation_app; [|exact IH].
  unfold column_values. apply Permutation_map. exact Hdf.
Qed.

Lemma code_occurrences_Permutation (df df' : dataframe)
  (cols cols' : list column) code :
  df ≡ₚ df' -> cols ≡ₚ cols' ->
  code_occurrences df cols code = code_occurrences df' cols' code.
Proof.
  intros Hdf Hcols. unfold code_occurrences.
  apply Permutation_length.
  apply (filter_Permutation (fun c => c = code)).
  apply Permutation_concat_map, visited_values_Permutation; assumption.
Qed.

Lemma code_occurrences_app (df1 df2 : dataframe) (cols : list column) code :
  code_occurrences (df1 ++ df2) cols code =
  code_occurrences df1 cols code + code_occurrences df2 cols code.
Proof. rewrite !code_occurrences_by_study. apply sum_list_with_app. Qed.

End Table.

Lemma limitation_counts_rows (df : dataframe) (cols : list column)
  (code : Py.str) :
  (is_Some (limitation_counts df cols !! code) <->
   exists r col v, r ∈ df /\ col ∈ cols /\ cell r col = Some v /\
                   code ∈ clean_codes v) /\
  limitation_counts df cols !! code <> Some 0.
Proof.
  rewrite limitation_counts_lookup.
  pose proof (filter_eq_length_0
                (concat (map extract_codes (visited_values df cols))) code)
    as Hzero.
  fold (code_occurrences df cols code) in Hzero.
  assert (Hin : code ∈ concat (map extract_codes (visited_values df cols)) <->
                exists r col v, r ∈ df /\ col ∈ cols /\ cell r col = Some v /\
                                code ∈ clean_codes v).
  { rewrite list_elem_of_In, in_concat. split.
    - intros (l & Hl & Hcode). apply in_map_iff in Hl as (value & <- & Hvalue).
      apply list_elem_of_In, elem_of_visited_values in Hvalue
        as (r & col & Hr & Hcol & ->).
      destruct (cell r col) as [v|] eqn:Hcell; [|inversion Hcode].
      apply list_elem_of_In in Hcode. exists r, col, v. auto.
    - intros (r & col & v & Hr & Hcol & Hcell & Hcode).
      exists (extract_codes (cell r col)). split.
      + apply in_map, list_elem_of_In, elem_of_visited_values. eauto.
      + rewrite Hcell. apply list_elem_of_In. exact Hcode. }
  destruct (code_occurrences df cols code) as [|n]; simpl.
  - split; [|discriminate]. rewrite <- Hin. split.
    + intros [x Hx]. discriminate.
    + intros H. exfalso. apply Hzero; [reflexivity | exact H].
  - split; [|intros H; injection H; lia]. rewrite <- Hin. split.
    + intros _. destruct (decide (code ∈ concat (map extract_codes
                                           (visited_values df cols))))
        as [H|H]; [exact H|]. apply Hzero in H. discriminate.
    + intros _. eexists. reflexivity.
Qed.

(** X4: a code has a row in the table exactly when the extractor gives it
    for some field of some study, and no row has the count 0. *)
Theorem table_rows_are_the_extracted_codes (df : dataframe)
  (cols : list column) (code : Py.str) :
  (is_Some (limitation_counts df cols !! code) <->
   exists r col v, r ∈ df /\ col ∈ cols /\ cell r col = Some v /\
                   code ∈ clean_codes v) /\
  limitation_counts df cols !! code <> Some 0.
Proof. apply limitation_counts_rows. Qed.

(** X5: the counts of the table add up to the number of tokens of all
    fields: every token is counted, and counted once. *)
Theorem counts_add_up_to_the_tokens (df : dataframe) (cols : list column) :
  sum_counts (limitation_counts df cols) =
  length (concat (map extract_codes (visited_values df cols))).
Proof.
  unfold limitation_counts. rewrite count_columns_sum.
  unfold sum_counts at 1. rewrite map_fold_empty. reflexivity.
Qed.

(** X6: the table does not depend on the order of the studies nor on the
    order of the limitation columns. *)
Theorem table_ignores_order (df df' : dataframe) (cols cols' : list column) :
  df ≡ₚ df' -> cols ≡ₚ cols' ->
  analyze_specific_limitations df cols = analyze_specific_limitations df' cols'.
Proof.
  intros Hdf Hcols. unfold analyze_specific_limitations.
  rewrite (Permutation_length Hdf). f_equal.
  apply map_eq. intros code. rewrite !limitation_counts_lookup.
  f_equal. apply code_occurrences_Permutation; assumption.
Qed.

Lemma table_ignores_order_witness :
  analyze_specific_limitations [Sample.both_twice; Sample.apart]
    limitation_columns =
  analyze_specific_limitations [Sample.apart; Sample.both_twice]
    (reverse limitation_columns).
Proof.
  apply table_ignores_order.
  - apply perm_swap.
  - exact (Permutation_rev limitation_columns).
Defined.

(** X7: the counts of two datasets put together are the counts of each,
    added code by code. *)
Theorem table_of_merged_datasets (df1 df2 : dataframe) (cols : list column) :
  limitation_counts (df1 ++ df2) cols =
  add_counts (limitation_counts df1 cols) (limitation_counts df2 cols).
Proof.
  apply map_eq. intros code. unfold add_counts.
  rewrite lookup_union_with, !limitation_counts_lookup, code_occurrences_app.
  destruct (code_occurrences df1 cols code), (code_occurrences df2 cols code);
    simpl; try reflexivity. f_equal. lia.
Qed.

(** ** The matrix as a whole *)
Section MatrixWhole.

Implicit Types (top : list Py.str) (p : Py.str * Py.str).


Lemma total_hits_merged top p (df1 df2 : dataframe) (cols : list column) :
  total_hits top p (visited_values (df1 ++ df2) cols) =
  total_hits top p (visited_values df1 cols)
  + total_hits top p (visited_values df2 cols).
Proof.
  unfold visited_values. induction cols as [|col cols IH]; [reflexivity|].
  cbn [map concat]. rewrite !total_hits_app, IH.
  unfold column_values. rewrite map_app, total_hits_app. lia.
Qed.

Lemma fields_with_both_le_occurrences (a b : Py.str)
  (values : list (option Py.str)) :
  length (filter (fun value => a ∈ extract_codes value /\
                               b ∈ extract_codes value) values)
  <= length (filter (fun c => c = a) (concat (map extract_codes values))).
Proof.
  induction values as [|v values IH]; [reflexivity|].
  cbn [map concat]. rewrite filter_cons, filter_app, length_app.
  destruct (decide (a ∈ extract_codes v /\ b ∈ extract_codes v)) as [[Ha _]|_];
    [|lia].
  assert (length (filter (fun c => c = a) (extract_codes v)) <> 0)
    by (rewrite filter_eq_length_0; tauto).
  simpl. lia.
Qed.

(** The value of a cell does not depend on the list of top codes its
    labels are taken from. *)
Lemma total_hits_any_top top top' (a b : Py.str)
  (values : list (option Py.str)) :
  NoDup top -> NoDup top' -> a ∈ top -> b ∈ top -> a ∈ top' -> b ∈ top' ->
  total_hits top (a, b) values = total_hits top' (a, b) values.
Proof.
  intros Hnd Hnd' Ha Hb Ha' Hb'. unfold total_hits.
  apply sum_list_with_pointwise. intros value.
  rewrite !value_hits_NoDup by assumption. reflexivity.
Qed.

End MatrixWhole.

(** X8: the matrix has a cell exactly for the pairs of top codes: a
    lookup by labels succeeds exactly for two top codes, a lookup by
    positions exactly below the number of top codes. *)
Theorem matrix_cells_are_the_pairs_of_top_codes (top : list Py.str)
  (df : dataframe) (cols : list column) :
  (forall a b : Py.str,
      is_Some (cooccurrence_matrix top df cols !! (a, b)) <->
      a ∈ top /\ b ∈ top) /\
  (forall i j : nat,
      is_Some (entry top (cooccurrence_matrix top df cols) i j) <->
      i < length top /\ j < length top).
Proof.
  split.
  - intros a b. rewrite cooccurrence_matrix_lookup.
    destruct (decide (a ∈ top /\ b ∈ top)) as [H|H].
    + split; [intros _; exact H | intros _; eexists; reflexivity].
    + split; [intros [x Hx]; discriminate | intros H'; contradiction].
  - intros i j. unfold entry. rewrite <- !lookup_lt_is_Some.
    destruct (top !! i) as [a|] eqn:Ha, (top !! j) as [b|] eqn:Hb.
    + rewrite cooccurrence_matrix_lookup, decide_True.
      * split; [intros _; split; eexists; reflexivity
               | intros _; eexists; reflexivity].
      * split; apply list_elem_of_lookup; eauto.
    + split; [intros [x Hx]; discriminate | intros [_ [x Hx]]; discriminate].
    + split; [intros [x Hx]; discriminate | intros [[x Hx] _]; discriminate].
    + split; [intros [x Hx]; discriminate | intros [[x Hx] _]; discriminate].
Qed.



(** X10: the matrix of two datasets put together is the sum, cell by cell,
    of the matrices of each over the same top codes. *)
Theorem matrix_of_merged_datasets (top : list Py.str) (df1 df2 : dataframe)
  (cols : list column) :
  cooccurrence_matrix top (df1 ++ df2) cols =
  add_counts (cooccurrence_matrix top df1 cols)
             (cooccurrence_matrix top df2 cols).
Proof.
  apply map_eq. intros [a b]. unfold add_counts.
  rewrite lookup_union_with, !cooccurrence_matrix_lookup, total_hits_merged.
  destruct (decide (a ∈ top /\ b ∈ top)); reflexivity.
Qed.

(** X11: the count of a pair of codes is the same in every matrix that has
    both codes among its distinct labels: it depends neither on the other
    top codes nor on the order of the top codes. *)
Theorem cell_ignores_the_other_top_codes (top top' : list Py.str)
  (df : dataframe) (cols : list column) (a b : Py.str) :
  NoDup top -> NoDup top' ->
  a ∈ top -> b ∈ top -> a ∈ top' -> b ∈ top' ->
  cooccurrence_matrix top df cols !! (a, b) =
  cooccurrence_matrix top' df cols !! (a, b).
Proof.
  intros Hnd Hnd' Ha Hb Ha' Hb'. rewrite !cooccurrence_matrix_lookup.
  rewrite !decide_True by tauto. f_equal.
  apply total_hits_any_top; assumption.
Qed.

Lemma cell_ignores_the_other_top_codes_witness :
  cooccurrence_matrix [Sample.B; Sample.A]
    [Sample.both_twice; Sample.three_apart] limitation_columns
    !! (Sample.A, Sample.B) =
  cooccurrence_matrix [Sample.A; Sample.C; Sample.B]
    [Sample.both_twice; Sample.three_apart] limitation_columns
    !! (Sample.A, Sample.B).
Proof.
  apply cell_ignores_the_other_top_codes; compute_done.
Defined.

(** X12: two codes never occur together more often than either of them
    occurs: a cell of the matrix is at most the count of its row code in
    the table of codes. *)
Theorem cell_at_most_the_count_of_its_code (top : list Py.str)
  (df : dataframe) (cols : list column) (a b : Py.str) :
  NoDup top -> a ∈ top -> b ∈ top ->
  default 0 (cooccurrence_matrix top df cols !! (a, b))
  <= default 0 (limitation_counts df cols !! a).
Proof.
  intros Hnd Ha Hb. destruct (decide (a = b)) as [<-|Hab].
  - rewrite cooccurrence_matrix_lookup, decide_True by tauto.
    rewrite total_hits_diagonal by assumption. simpl. lia.
  - rewrite cooccurrence_cell_fields by assumption.
    rewrite limitation_counts_lookup. simpl.
    pose proof (fields_with_both_le_occurrences a b (visited_values df cols))
      as Hle.
    fold (fields_with_both df cols a b) in Hle.
    fold (code_occurrences df cols a) in Hle.
    destruct (code_occurrences df cols a); simpl; lia.
Qed.

Lemma cell_at_most_the_count_of_its_code_witness :
  default 0 (cooccurrence_matrix [Sample.B; Sample.A]
               [Sample.both_twice; Sample.repeated] limitation_columns
               !! (Sample.A, Sample.B))
  <= default 0 (limitation_counts [Sample.both_twice; Sample.repeated]
                  limitation_columns !! Sample.A).
Proof.
  apply cell_at_most_the_count_of_its_code; compute_done.
Defined.

(** X13: when no study has any limitation field filled in, the table of
    codes is empty, there is no top code, and the matrix has no cell. *)
Theorem nothing_reported_gives_empty_results (df : dataframe)
  (cols : list column) :
  (forall r col, r ∈ df -> col ∈ cols -> cell r col = None) ->
  limitation_counts df cols = ∅ /\
  (forall top M, analyze_limitation_cooccurrence df cols top M ->
                 top = [] /\ M = ∅).
Proof.
  intros Hmissing.
  assert (Hempty : limitation_counts df cols = ∅).
  { apply map_eq. intros code. rewrite lookup_empty.
    destruct (limitation_counts df cols !! code) as [n|] eqn:E; [|reflexivity].
    assert (Hsome : is_Some (limitation_counts df cols !! code))
      by (rewrite E; eexists; reflexivity).
    apply (proj1 (limitation_counts_rows df cols code)) in Hsome
      as (r & col & v & Hr & Hcol & Hcell & _).
    rewrite (Hmissing r col Hr Hcol) in Hcell. discriminate. }
  split; [exact Hempty|].
  intros top M [(sorted & Hperm & _ & Htop) ->].
  rewrite Hempty, map_to_list_empty in Hperm.
  apply Permutation_nil_r in Hperm. subst sorted. simpl in Htop. subst top.
  split; [reflexivity|].
  apply map_eq. intros [a b].
  rewrite cooccurrence_matrix_lookup, lookup_empty.
  rewrite decide_False; [reflexivity|]. intros [H _]. inversion H.
Qed.

Lemma nothing_reported_gives_empty_results_witness :
  limitation_counts [Study None None None None None] limitation_columns = ∅.
Proof.
  apply (nothing_reported_gives_empty_results
           [Study None None None None None] limitation_columns).
  intros r col Hr _. apply list_elem_of_singleton in Hr. subst r.
  destruct col; reflexivity.
Defined.

(** ** Counting studies with a field filled in *)
Section Filters.

Context {A : Type}.
Implicit Types (l : list A).

Lemma length_filter_impl (P Q : A -> Prop)
  `{!forall x, Decision (P x)} `{!forall x, Decision (Q x)} l :
  (forall x, P x -> Q x) -> length (filter P l) <= length (filter Q l).
Proof.
  intros HPQ. induction l as [|x l IH]; [reflexivity|].
  rewrite !filter_cons.
  destruct (decide (P x)) as [HP|HP], (decide (Q x)) as [HQ|HQ]; simpl;
    try lia. exfalso. auto.
Qed.

Lemma length_filter_iff (P Q : A -> Prop)
  `{!forall x, Decision (P x)} `{!forall x, Decision (Q x)} l :
  (forall x, P x <-> Q x) -> length (filter P l) = length (filter Q l).
Proof.
  intros HPQ. apply Nat.le_antisymm; apply length_filter_impl;
    intros x; apply HPQ.
Qed.

Lemma length_filter_or (P Q R : A -> Prop)
  `{!forall x, Decision (P x)} `{!forall x, Decision (Q x)}
  `{!forall x, Decision (R x)} l :
  (forall x, P x -> Q x \/ R x) ->
  length (filter P l) <= length (filter Q l) + length (filter R l).
Proof.
  intros Hcase. induction l as [|x l IH]; [reflexivity|].
  rewrite !filter_cons.
  destruct (decide (P x)) as [HP|HP], (decide (Q x)) as [HQ|HQ],
    (decide (R x)) as [HR|HR]; simpl; try lia.
  exfalso. destruct (Hcase x HP); contradiction.
Qed.

End Filters.

Section StudyCounts.

Implicit Types (studies : dataframe) (columns : list column).

Lemma notna_any_count_subset columns columns' studies :
  (forall col, col ∈ columns -> col ∈ columns') ->
  notna_any_count columns studies <= notna_any_count columns' studies.
Proof.
  intros Hsub. unfold notna_any_count. apply length_filter_impl.
  intros r. rewrite !Exists_exists. intros (col & Hcol & H). eauto.
Qed.

Lemma notna_any_count_union columns columns1 columns2 studies :
  (forall col, col ∈ columns -> col ∈ columns1 \/ col ∈ columns2) ->
  notna_any_count columns studies
  <= notna_any_count columns1 studies + notna_any_count columns2 studies.
Proof.
  intros Hcover. unfold notna_any_count. apply length_filter_or.
  intros r. rewrite !Exists_exists. intros (col & Hcol & H).
  destruct (Hcover col Hcol); [left | right]; eauto.
Qed.

Lemma notna_count_studies studies (col : column) :
  notna_count studies col =
  length (filter (fun r => is_Some (cell r col)) studies).
Proof.
  unfold notna_count, column_values.
  induction studies as [|r studies IH]; [reflexivity|].
  cbn [map]. rewrite !filter_cons.
  destruct (decide (is_Some (cell r col))); simpl; rewrite IH; reflexivity.
Qed.

Lemma notna_any_count_le_sum columns studies :
  notna_any_count columns studies
  <= sum_list_with (notna_count studies) columns.
Proof.
  rewrite (sum_list_with_pointwise _ _ _ (notna_count_studies studies)).
  unfold notna_any_count.
  induction studies as [|r studies IH].
  - simpl. induction columns as [|col columns IHc]; simpl; lia.
  - rewrite filter_cons.
    assert (Hsplit :
      sum_list_with
        (fun col => length (filter (fun r0 => is_Some (cell r0 col))
                                   (r :: studies))) columns =
      sum_list_with (fun col => if decide (is_Some (cell r col)) then 1 else 0)
                    columns
      + sum_list_with
          (fun col => length (filter (fun r0 => is_Some (cell r0 col)) studies))
          columns).
    { rewrite <- sum_list_with_add. apply sum_list_with_pointwise.
      intros col. rewrite filter_cons.
      destruct (decide (is_Some (cell r col))); reflexivity. }
    rewrite Hsplit.
    destruct (decide (Exists (fun col => is_Some (cell r col)) columns))
      as [Hex|Hex]; [|lia].
    assert (1 <= sum_list_with
                   (fun col => if decide (is_Some (cell r col)) then 1 else 0)
                   columns).
    { clear -Hex. induction Hex as [col columns H|col columns _ IHex]; simpl.
      - rewrite decide_True by assumption. lia.
      - lia. }
    simpl. lia.
Qed.

Lemma count_first_report_found (limitation : Py.str)
  (values : list (option Py.str)) (count : nat) :
  count_first_report limitation values count =
  count + (if decide (Exists (fun value => limitation ∈ extract_codes value)
                             values)
           then 1 else 0).
Proof.
  induction values as [|[v|] values IH].
  - cbn [count_first_report].
    destruct (decide (Exists (fun value => limitation ∈ extract_codes value)
                             [])) as [H|H]; [inversion H | lia].
  - cbn [count_first_report].
    destruct (decide (limitation ∈ clean_codes v)) as [Hin|Hin].
    + rewrite decide_True by (left; exact Hin). reflexivity.
    + rewrite IH.
      destruct (decide (Exists (fun value => limitation ∈ extract_codes value)
                               values)) as [H|H].
      * rewrite decide_True by (right; exact H). reflexivity.
      * rewrite decide_False; [reflexivity|].
        intros H'. apply Exists_cons in H' as [H'|H']; contradiction.
  - cbn [count_first_report]. rewrite IH.
    destruct (decide (Exists (fun value => limitation ∈ extract_codes value)
                             values)) as [H|H].
    + rewrite decide_True by (right; exact H). reflexivity.
    + rewrite decide_False; [reflexivity|].
      intros H'. apply Exists_cons in H' as [H'|H']; [inversion H' | contradiction].
Qed.

Lemma year_count_from (cols : list column) (year_studies : dataframe)
  (limitation : Py.str) (count : nat) :
  fold_left
    (fun count col =>
       count_first_report limitation (column_values year_studies col) count)
    cols count
  = count
    + length (filter
                (fun col =>
                   Exists (fun r => limitation ∈ extract_codes (cell r col))
                          year_studies)
                cols).
Proof.
  revert count. induction cols as [|col cols IH]; intros count; simpl; [lia|].
  rewrite IH, count_first_report_found, filter_cons.
  unfold column_values.
  destruct (decide (Exists (fun r => limitation ∈ extract_codes (cell r col))
                           year_studies)) as [H|H].
  - rewrite decide_True; [simpl; lia|].
    apply Exists_exists in H as (r & Hr & Hcode). apply Exists_exists.
    exists (cell r col). split; [|exact Hcode].
    apply list_elem_of_In, in_map_iff. exists r.
    split; [reflexivity | apply list_elem_of_In; exact Hr].
  - rewrite decide_False; [lia|]. intros H'. apply H.
    apply Exists_exists in H' as (value & Hvalue & Hcode).
    apply list_elem_of_In, in_map_iff in Hvalue as (r & <- & Hr).
    apply Exists_exists. exists r.
    split; [apply list_elem_of_In; exact Hr | exact Hcode].
Qed.

End StudyCounts.

(** X14: in every comparison of groups of studies the three counts fit
    together: the studies with a methodological limitation and those with a
    contextual one are each among the studies with any limitation, which are
    at most the sum of the two and at most the size of the group. *)
Theorem comparison_counts_fit_together (studies : dataframe) :
  let g := compare_group limitation_columns studies in
  Methodological_Count g <= Total_Count g /\
  Contextual_Count g <= Total_Count g /\
  Total_Count g <= Methodological_Count g + Contextual_Count g /\
  Total_Count g <= N_studies g.
Proof.
  cbn [compare_group Methodological_Count Contextual_Count Total_Count
       N_studies].
  split; [|split; [|split]].
  - apply notna_any_count_subset. intros col.
    unfold methodological_columns, limitation_columns.
    rewrite !elem_of_cons, !elem_of_nil. tauto.
  - apply notna_any_count_subset. intros col.
    unfold contextual_columns, limitation_columns.
    rewrite !elem_of_cons, !elem_of_nil. tauto.
  - apply notna_any_count_union. intros col.
    unfold methodological_columns, contextual_columns, limitation_columns.
    rewrite !elem_of_cons, !elem_of_nil. tauto.
  - unfold notna_any_count. apply length_filter.
Qed.

(** X15: the studies with a value in some of several columns are at least
    as many as the studies with a value in any one of them, and at most as
    many as those counts added over the columns. *)
Theorem any_count_between_column_counts (columns : list column)
  (studies : dataframe) :
  Forall (fun col => notna_count studies col
                     <= notna_any_count columns studies) columns /\
  notna_any_count columns studies
  <= sum_list_with (notna_count studies) columns.
Proof.
  split; [|apply notna_any_count_le_sum].
  apply Forall_forall. intros col Hcol.
  rewrite notna_count_studies. unfold notna_any_count.
  apply length_filter_impl. intros r H. apply Exists_exists. eauto.
Qed.

(** X16: the yearly count of a top limitation is the number of limitation
    columns in which some study of the year reports it, not the number of
    such studies; it never exceeds the number of columns. *)
Theorem year_count_counts_columns (cols : list column)
  (year_studies : dataframe) (limitation : Py.str) :
  year_count cols year_studies limitation =
  length (filter
            (fun col =>
               Exists (fun r => limitation ∈ extract_codes (cell r col))
                      year_studies)
            cols) /\
  year_count cols year_studies limitation <= length cols.
Proof.
  unfold year_count. rewrite year_count_from. simpl.
  split; [reflexivity | apply length_filter].
Qed.

(** ** Tokens as parts of the field *)
Section Infix.

Implicit Types (s t sub : Py.str) (c sep : N).

Lemma infix_refl s : infix s s.
Proof. exists [], []. rewrite app_nil_r. reflexivity. Qed.

Lemma infix_trans s t u : infix s t -> infix t u -> infix s u.
Proof.
  intros (b1 & a1 & ->) (b2 & a2 & ->).
  exists (b2 ++ b1), (a1 ++ a2). rewrite <- !app_assoc. reflexivity.
Qed.

Lemma infix_cons c sub s : infix sub s -> infix sub (c :: s).
Proof. intros (b & a & ->). exists (c :: b), a. reflexivity. Qed.

Lemma lstrip_suffix s : exists k, s = k ++ Py.lstrip s.
Proof.
  induction s as [|c s [k IH]]; simpl; [exists []; reflexivity|].
  destruct (Py.isspace c).
  - exists (c :: k). simpl. f_equal. exact IH.
  - exists []. reflexivity.
Qed.

Lemma rstrip_prefix s : exists k, s = Py.rstrip s ++ k.
Proof.
  unfold Py.rstrip. destruct (lstrip_suffix (rev s)) as [k Hk].
  exists (rev k). rewrite <- rev_app_distr, <- Hk, rev_involutive.
  reflexivity.
Qed.

Lemma strip_infix s : infix (Py.strip s) s.
Proof.
  unfold Py.strip. destruct (lstrip_suffix s) as [k1 H1].
  destruct (rstrip_prefix (Py.lstrip s)) as [k2 H2].
  exists k1, k2. rewrite <- H2. exact H1.
Qed.

Lemma before_first_prefix sep s : exists k, s = before_first sep s ++ k.
Proof.
  induction s as [|c s [k IH]]; simpl; [exists []; reflexivity|].
  destruct (c =? sep)%N.
  - exists (c :: s). reflexivity.
  - exists k. simpl. f_equal. exact IH.
Qed.

Lemma before_first_infix sep s : infix (before_first sep s) s.
Proof. destruct (before_first_prefix sep s) as [k Hk]. exists [], k. exact Hk. Qed.

Lemma split_infix sep s piece : piece ∈ Py.split sep s -> infix piece s.
Proof.
  revert piece. induction s as [|c s IH]; intros piece; simpl.
  - intros H. apply list_elem_of_singleton in H. subst. apply infix_refl.
  - destruct (c =? sep)%N.
    + intros [->|H]%elem_of_cons.
      * exists [], (c :: s). reflexivity.
      * apply infix_cons, IH, H.
    + pose proof (item0_split sep s) as Hfirst. unfold Py.item0 in Hfirst.
      destruct (Py.split sep s) as [|q qs]; [discriminate Hfirst|].
      simpl in Hfirst. injection Hfirst as ->.
      intros [->|H]%elem_of_cons.
      * destruct (before_first_prefix sep s) as [k Hk].
        exists [], k. simpl. f_equal. exact Hk.
      * apply infix_cons, IH. right. exact H.
Qed.

Lemma token_infix (value token : Py.str) :
  token ∈ clean_codes value -> infix token value.
Proof.
  intros H. apply elem_of_clean_codes in H as (piece & Hpiece & ->).
  eapply infix_trans; [apply strip_infix|].
  eapply infix_trans; [apply before_first_infix|].
  eapply infix_trans; [apply strip_infix|].
  apply split_infix with semicolon. exact Hpiece.
Qed.

Lemma is_prefix_app sub s : is_prefix sub (sub ++ s) = true.
Proof.
  induction sub as [|c sub IH]; [reflexivity|]. simpl.
  rewrite N.eqb_refl, IH. reflexivity.
Qed.

Lemma contains_str_infix sub s : infix sub s -> contains_str sub s = true.
Proof.
  intros (before & after & ->). induction before as [|c before IH].
  - simpl. destruct (sub ++ after) as [|d rest] eqn:E.
    + simpl. rewrite <- E, is_prefix_app. reflexivity.
    + simpl. rewrite <- E, is_prefix_app. reflexivity.
  - simpl. rewrite IH. apply orb_true_r.
Qed.

Lemma contextual_count_from (cols : list column) (year_data : dataframe)
  (limitation : Py.str) (count : nat) :
  fold_left
    (fun count col =>
       count + str_contains_count limitation (column_values year_data col))
    cols count
  = count + str_contains_count limitation (visited_values year_data cols).
Proof.
  revert count. induction cols as [|col cols IH]; intros count.
  - unfold str_contains_count, visited_values. cbn. lia.
  - cbn [fold_left]. rewrite IH.
    unfold str_contains_count, visited_values. cbn [map concat].
    rewrite filter_app, length_app. lia.
Qed.

End Infix.

(** X17: for each of the four contextual limitations the yearly count is a
    count of fields that hold its name as a substring: it is at least the
    number of fields where the extractor gives that code, and at most the
    number of fields of the year's studies - so it may exceed the number of
    studies. *)
Theorem substring_count_covers_the_tokens :
  Forall
    (fun limitation =>
       forall (cols : list column) (year_data : dataframe),
         length (filter (fun value => limitation ∈ extract_codes value)
                        (visited_values year_data cols))
         <= contextual_count cols year_data limitation /\
         contextual_count cols year_data limitation
         <= length cols * length year_data)
    contextual_limitations.
Proof.
  apply Forall_forall. intros limitation _ cols year_data.
  unfold contextual_count. rewrite contextual_count_from. simpl.
  unfold str_contains_count. split.
  - apply length_filter_impl. intros [v|] H; [|inversion H].
    simpl. apply contains_str_infix, token_infix. exact H.
  - rewrite <- length_visited_values. apply length_filter.
Qed.

(** ** The list of co-occurring pairs *)
Section Pairs.

Implicit Types (pct : gmap (Py.str * Py.str) Q) (top : list Py.str).
Implicit Types (pairs : list (Py.str * Py.str * Q)).

Lemma cooccurrence_pairs_from pct (pre l : list Py.str) pairs :
  fold_left
    (fun pairs '(i, lim1) =>
       fold_left (add_pair pct lim1) (drop (i + 1) (pre ++ l)) pairs)
    (zip (seq (length pre) (length l)) l) pairs
  = cooccurrence_pairs_rec pct l pairs.
Proof.
  revert pre pairs. induction l as [|x l IH]; intros pre pairs; [reflexivity|].
  cbn [length seq zip zip_with fold_left cooccurrence_pairs_rec].
  replace (drop (length pre + 1) (pre ++ x :: l)) with l.
  - specialize (IH (pre ++ [x])). rewrite length_app in IH. simpl in IH.
    rewrite <- (Nat.add_1_r (length pre)).
    rewrite <- IH. rewrite <- app_assoc. reflexivity.
  - replace (pre ++ x :: l) with ((pre ++ [x]) ++ l)
      by (rewrite <- app_assoc; reflexivity).
    rewrite drop_app_length'; [reflexivity|].
    rewrite length_app. reflexivity.
Qed.

Lemma cooccurrence_pairs_unfold top pct :
  cooccurrence_pairs top pct = cooccurrence_pairs_rec pct top [].
Proof. apply (cooccurrence_pairs_from pct [] top []). Qed.

Lemma elem_of_add_pairs pct (lim1 : Py.str) (rest : list Py.str) pairs
  (a b : Py.str) (x : Q) :
  (a, b, x) ∈ fold_left (add_pair pct lim1) rest pairs <->
  (a, b, x) ∈ pairs \/
  (a = lim1 /\ b ∈ rest /\ pct !! (a, b) = Some x /\ (0 < x)%Q).
Proof.
  revert pairs. induction rest as [|lim2 rest IH]; intros pairs.
  - simpl. rewrite elem_of_nil. tauto.
  - cbn [fold_left]. rewrite IH, elem_of_cons. unfold add_pair.
    destruct (pct !! (lim1, lim2)) as [y|] eqn:E.
    + destruct (Qlt_le_dec 0 y) as [Hy|Hy].
      * rewrite elem_of_app, list_elem_of_singleton. split.
        -- intros [[H|H]|H]; [tauto | | tauto].
           injection H as -> -> ->. tauto.
        -- intros [H|(-> & [->|H] & Hpct & Hx)]; [tauto | | tauto].
           rewrite E in Hpct. injection Hpct as ->. tauto.
      * split; [tauto|].
        intros [H|(-> & [->|H] & Hpct & Hx)]; [tauto | | tauto].
        rewrite E in Hpct. injection Hpct as ->.
        exfalso. exact (Qlt_not_le _ _ Hx Hy).
    + split; [tauto|].
      intros [H|(-> & [->|H] & Hpct & Hx)]; [tauto | | tauto].
      rewrite E in Hpct. discriminate.
Qed.

Lemma elem_of_cooccurrence_pairs_rec pct top pairs (a b : Py.str) (x : Q) :
  (a, b, x) ∈ cooccurrence_pairs_rec pct top pairs <->
  (a, b, x) ∈ pairs \/
  (pct !! (a, b) = Some x /\ (0 < x)%Q /\
   exists before after, top = before ++ a :: after /\ b ∈ after).
Proof.
  revert pairs. induction top as [|lim1 rest IH]; intros pairs.
  - simpl. split; [tauto|]. intros [H|(_ & _ & before & after & H & _)]; [exact H|].
    destruct before; discriminate.
  - cbn [cooccurrence_pairs_rec]. rewrite IH, elem_of_add_pairs. split.
    + intros [[H|(-> & Hb & Hpct & Hx)]|(Hpct & Hx & before & after & -> & Hb)].
      * tauto.
      * right. split; [assumption|]. split; [assumption|].
        exists [], rest. auto.
      * right. split; [assumption|]. split; [assumption|].
        exists (lim1 :: before), after. auto.
    + intros [H|(Hpct & Hx & before & after & Heq & Hb)]; [tauto|].
      destruct before as [|c before]; simpl in Heq; injection Heq as -> ->.
      * left. right. tauto.
      * right. split; [assumption|]. split; [assumption|]. eauto.
Qed.

Lemma order_positions (l : list Py.str) (a b : Py.str) :
  (exists before after, l = before ++ a :: after /\ b ∈ after) ->
  exists i j, i < j /\ l !! i = Some a /\ l !! j = Some b.
Proof.
  intros (before & after & -> & Hb).
  apply list_elem_of_lookup in Hb as [k Hk].
  exists (length before), (length before + S k). split; [lia|]. split.
  - rewrite lookup_app_r by lia. rewrite Nat.sub_diag. reflexivity.
  - rewrite lookup_app_r by lia.
    replace (length before + S k - length before) with (S k) by lia.
    exact Hk.
Qed.

Lemma NoDup_order (l : list Py.str) (a b : Py.str) :
  NoDup l ->
  (exists before after, l = before ++ a :: after /\ b ∈ after) ->
  (exists before after, l = before ++ b :: after /\ a ∈ after) ->
  False.
Proof.
  intros Hnd Hab Hba.
  apply order_positions in Hab as (i & j & Hij & Hi & Hj).
  apply order_positions in Hba as (i' & j' & Hij' & Hi' & Hj').
  pose proof (NoDup_lookup l i j' a Hnd Hi Hj').
  pose proof (NoDup_lookup l j i' b Hnd Hj Hi').
  lia.
Qed.

Lemma order_total (l : list Py.str) (a b : Py.str) :
  a ∈ l -> b ∈ l -> a <> b ->
  (exists before after, l = before ++ a :: after /\ b ∈ after) \/
  (exists before after, l = before ++ b :: after /\ a ∈ after).
Proof.
  intros Ha Hb Hab. apply list_elem_of_split in Ha as (l1 & l2 & ->).
  apply elem_of_app in Hb as [Hb|Hb].
  - right. apply list_elem_of_split in Hb as (m1 & m2 & ->).
    exists m1, (m2 ++ a :: l2). split.
    + rewrite <- app_assoc. reflexivity.
    + apply elem_of_app. right. left.
  - left. apply elem_of_cons in Hb as [Hb|Hb]; [congruence|]. eauto.
Qed.

Lemma percentage_positive (n total : nat) :
  (0 < percentage n total)%Q -> 0 < n.
Proof.
  destruct n as [|n]; [|lia]. unfold percentage, Qlt. simpl. lia.
Qed.

Lemma positive_percentage (n total : nat) :
  0 < n -> 0 < total -> (0 < percentage n total)%Q.
Proof.
  intros Hn Ht. unfold percentage.
  apply Qmult_lt_0_compat; [|reflexivity].
  apply Qlt_shift_div_l.
  - unfold Qlt. simpl. lia.
  - rewrite Qmult_0_l. unfold Qlt. simpl. lia.
Qed.

Lemma fields_with_both_positive (df : dataframe) (cols : list column)
  (a b : Py.str) :
  0 < fields_with_both df cols a b <->
  exists r col, r ∈ df /\ col ∈ cols /\
                a ∈ extract_codes (cell r col) /\
                b ∈ extract_codes (cell r col).
Proof.
  unfold fields_with_both. split.
  - intros Hpos.
    destruct (filter (fun value => a ∈ extract_codes value /\
                                   b ∈ extract_codes value)
                     (visited_values df cols)) as [|value rest] eqn:E;
      [simpl in Hpos; lia|].
    assert (Hin : value ∈ filter (fun value => a ∈ extract_codes value /\
                                               b ∈ extract_codes value)
                                 (visited_values df cols))
      by (rewrite E; left).
    apply list_elem_of_filter in Hin as [[Ha Hb] Hin].
    apply elem_of_visited_values in Hin as (r & col & Hr & Hcol & ->).
    eauto 6.
  - intros (r & col & Hr & Hcol & Ha & Hb).
    assert (Hin : cell r col ∈ filter (fun value => a ∈ extract_codes value /\
                                                    b ∈ extract_codes value)
                                      (visited_values df cols)).
    { apply list_elem_of_filter. split; [tauto|].
      apply elem_of_visited_values. eauto. }
    destruct (filter _ (visited_values df cols)); [inversion Hin | simpl; lia].
Qed.

Lemma fields_with_both_le (df : dataframe) (cols : list column) (a b : Py.str) :
  fields_with_both df cols a b <= length cols * length df.
Proof.
  unfold fields_with_both. rewrite <- length_visited_values.
  apply length_filter.
Qed.

End Pairs.

(** X18: among the pairs listed after the matrix, two different top codes
    appear as a pair exactly when some field of some study holds both, and
    then in one order only. *)
Theorem listed_pairs_are_the_cooccurring_pairs (top : list Py.str)
  (df : dataframe) (cols : list column) (a b : Py.str) :
  NoDup top -> a ∈ top -> b ∈ top -> a <> b ->
  let listed :=
    map fst (cooccurrence_pairs top
               (cooccurrence_pct (cooccurrence_matrix top df cols) (length df)))
  in
  ((a, b) ∈ listed \/ (b, a) ∈ listed <->
   exists r col, r ∈ df /\ col ∈ cols /\
                 a ∈ extract_codes (cell r col) /\
                 b ∈ extract_codes (cell r col)) /\
  ~ ((a, b) ∈ listed /\ (b, a) ∈ listed).
Proof.
  intros Hnd Ha Hb Hab listed.
  assert (Hpct : forall c d : Py.str, c ∈ top -> d ∈ top -> c <> d ->
            cooccurrence_pct (cooccurrence_matrix top df cols) (length df)
              !! (c, d)
            = Some (percentage (fields_with_both df cols c d) (length df))).
  { intros c d Hc Hd Hcd. unfold cooccurrence_pct.
    rewrite lookup_fmap, cooccurrence_cell_fields by assumption. reflexivity. }
  assert (Hlisted : forall c d : Py.str, c ∈ top -> d ∈ top -> c <> d ->
            ((c, d) ∈ listed <->
             (0 < percentage (fields_with_both df cols c d) (length df))%Q /\
             exists before after, top = before ++ c :: after /\ d ∈ after)).
  { intros c d Hc Hd Hcd. unfold listed.
    rewrite cooccurrence_pairs_unfold. split.
    - intros H. apply list_elem_of_fmap in H as ([[c' d'] x] & Heq & H).
      simpl in Heq. injection Heq as <- <-.
      apply elem_of_cooccurrence_pairs_rec in H
        as [H|(Hx & Hpos & Horder)]; [inversion H|].
      rewrite Hpct in Hx by assumption. injection Hx as <-. tauto.
    - intros [Hpos Horder].
      apply list_elem_of_fmap.
      exists (c, d, percentage (fields_with_both df cols c d) (length df)).
      split; [reflexivity|].
      apply elem_of_cooccurrence_pairs_rec. right.
      rewrite Hpct by assumption. tauto. }
  assert (Hsym : fields_with_both df cols b a = fields_with_both df cols a b).
  { unfold fields_with_both. apply length_filter_iff. intros value. tauto. }
  rewrite !Hlisted by (assumption || congruence). rewrite Hsym. split.
  - rewrite <- fields_with_both_positive. split.
    + intros [[H _]|[H _]]; exact (percentage_positive _ _ H).
    + intros Hpos.
      assert (0 < length df).
      { pose proof (fields_with_both_le df cols a b). destruct df; simpl in *; lia. }
      pose proof (positive_percentage _ _ Hpos H) as Hq.
      destruct (order_total top a b Ha Hb Hab); [left | right]; tauto.
  - intros [[_ H1] [_ H2]]. exact (NoDup_order top a b Hnd H1 H2).
Qed.

Lemma listed_pairs_are_the_cooccurring_pairs_witness :
  ~ ((Sample.A, Sample.B) ∈
       map fst (cooccurrence_pairs [Sample.B; Sample.A]
                  (cooccurrence_pct
                     (cooccurrence_matrix [Sample.B; Sample.A]
                        [Sample.both_twice] limitation_columns)
                     (length [Sample.both_twice]))) /\
     (Sample.B, Sample.A) ∈
       map fst (cooccurrence_pairs [Sample.B; Sample.A]
                  (cooccurrence_pct
                     (cooccurrence_matrix [Sample.B; Sample.A]
                        [Sample.both_twice] limitation_columns)
                     (length [Sample.both_twice])))).
Proof.
  apply (listed_pairs_are_the_cooccurring_pairs [Sample.B; Sample.A]
           [Sample.both_twice] limitation_columns Sample.A Sample.B);
    compute_done.
Defined.

(** ** Cleaning the multi-site column *)

(** X19: a study that the comparison of designs puts in its "Yes" group is
    labelled "Yes" by the cleaning of the column, and one in the "No" group
    is labelled "No". *)
Theorem multi_site_groups_agree_with_cleaning (lower : Py.str -> Py.str)
  (value : option Py.str) :
  lower (Py.of_string "Yes") = Py.of_string "yes" ->
  lower (Py.of_string "No") = Py.of_string "no" ->
  (in_group (Py.of_string "Yes") value = true ->
   clean_multi_site lower value = Py.of_string "Yes") /\
  (in_group (Py.of_string "No") value = true ->
   clean_multi_site lower value = Py.of_string "No").
Proof.
  intros Hyes Hno. destruct value as [v|]; simpl; [|split; discriminate].
  split; intros H; apply bool_decide_eq_true in H; rewrite H.
  - rewrite Hyes. rewrite decide_True by reflexivity. reflexivity.
  - rewrite Hno. rewrite decide_False by discriminate.
    rewrite decide_True by reflexivity. reflexivity.
Qed.

Lemma multi_site_groups_agree_with_cleaning_witness :
  clean_multi_site ascii_lower (Some (Py.of_string " Yes ")) =
  Py.of_string "Yes".
Proof.
  apply (multi_site_groups_agree_with_cleaning ascii_lower
           (Some (Py.of_string " Yes "))); reflexivity.
Defined.

(** ** The choice of the top codes *)

Lemma StronglySorted_app_elem_of {A : Type} (R : A -> A -> Prop)
  (l1 l2 : list A) (x1 x2 : A) :
  StronglySorted R (l1 ++ l2) -> x1 ∈ l1 -> x2 ∈ l2 -> R x1 x2.
Proof.
  induction l1 as [|y l1 IH]; intros Hsorted H1 H2; [inversion H1|].
  simpl in Hsorted. apply StronglySorted_inv in Hsorted as [Hrest Hall].
  apply elem_of_cons in H1 as [->|H1]; [|auto].
  rewrite Forall_forall in Hall. apply Hall.
  apply elem_of_app. right. exact H2.
Qed.

(** X20: the top codes are codes of the table, as many as there are up to
    ten, and no code left out has a larger count than a code taken. *)
Theorem top_codes_have_the_largest_counts (counts : gmap Py.str nat)
  (top : list Py.str) :
  is_top_10 counts top ->
  length top = Nat.min 10 (size counts) /\
  (forall code, code ∈ top -> is_Some (counts !! code)) /\
  (forall code other n m,
      code ∈ top -> other ∉ top ->
      counts !! code = Some n -> counts !! other = Some m -> m <= n).
Proof.
  intros (sorted & Hperm & Hsorted & ->).
  assert (Hlookup : forall code n, (code, n) ∈ sorted <-> counts !! code = Some n).
  { intros code n. rewrite Hperm. apply elem_of_map_to_list. }
  split; [|split].
  - rewrite length_map, length_take, (Permutation_length Hperm),
      length_map_to_list. reflexivity.
  - intros code Hcode.
    apply list_elem_of_fmap in Hcode as ([code' n] & -> & Hin).
    exists n. apply Hlookup. apply (subseteq_take 10). exact Hin.
  - intros code other n m Hcode Hother Hn Hm.
    apply list_elem_of_fmap in Hcode as ([code' n'] & -> & Hin).
    simpl in Hn.
    assert (n' = n).
    { apply (subseteq_take 10), Hlookup in Hin. congruence. }
    subst n'.
    apply Hlookup in Hm. rewrite <- (take_drop 10 sorted) in Hm, Hsorted.
    apply elem_of_app in Hm as [Hm|Hm].
    + exfalso. apply Hother. apply list_elem_of_fmap.
      exists (other, m). split; [reflexivity | exact Hm].
    + exact (StronglySorted_app_elem_of _ _ _ _ _ Hsorted Hin Hm).
Qed.

Lemma top_codes_have_the_largest_counts_witness :
  length [Sample.C; Sample.B; Sample.A] =
  Nat.min 10 (size (limitation_counts [Sample.three_apart] limitation_columns)).
Proof.
  apply (top_codes_have_the_largest_counts
           (limitation_counts [Sample.three_apart] limitation_columns)
           [Sample.C; Sample.B; Sample.A]).
  top_10_by [(Sample.C, 1); (Sample.B, 1); (Sample.A, 1)].
Defined.
